(** * cloud-switch: the [SwitchElement] custom element

    A shallow embedding of [src/js/switch-component.js].  The element is a
    state mirror between the attributes of the custom element itself (the
    host), a checkbox inside its shadow tree ([shadowCheck]) that drives the
    rendering, and a hidden checkbox appended to the host ([checkbox]) that
    carries the value in a form submission.

    Modelling decisions.
    - Attributes of an element are a finite map from names to strings.
    - JavaScript numbers are binary64 floats ([PrimFloat]).
    - The conversions between numbers and strings and the layout engine's
      computed style belong to the platform; they are the fields of the class
      [Platform] and every definition is parametric in them.
    - [setAttribute] and [removeAttribute] on the host run the custom element
      reaction [attributeChangedCallback] before they return.  The setters and
      the callback are mutually recursive in the source; the recursion is tied
      here with a fuel counter, and [react_total] shows that three levels
      are always enough.
    - [style.setProperty] records the text it is given; the browser's CSS
      value validation is outside the model.  [classList] is kept as a token
      set of its own; its reflection in the (unobserved) [class] attribute is
      outside the model. *)

From Stdlib Require Import ZArith Floats Ascii DecimalString.
From stdpp Require Import base option strings gmap list.

Set Warnings "-inexact-float".

(** ** JavaScript values

    The primitive values a property of the switch is assigned. *)

Inductive value :=
  | VUndefined
  | VNull
  | VBoolean (b : bool)
  | VNumber (n : float)
  | VString (s : string).

(** [Boolean(value)]. *)
Definition ToBoolean (v : value) : bool :=
  match v with
  | VUndefined | VNull => false
  | VBoolean b => b
  | VNumber n => negb ((n =? 0)%float || is_nan n)
  | VString s => negb (String.eqb s "")
  end.

(** The value an attribute-changed reaction receives: a string or [null]. *)
Definition of_nullable (o : option string) : value :=
  match o with
  | Some s => VString s
  | None => VNull
  end.

(** ** The DOM state of one switch *)

(** An [<input>] element: its content attributes and the expando property
    [readonly] the readonly setter assigns (the reflected IDL attribute is
    spelled [readOnly], so [input.readonly = b] creates a plain property). *)
Record HTMLInputElement := {
  attributes : gmap string string;
  readonly_prop : option bool
}.

Record SwitchElement := {
  host : gmap string string;          (* attributes of <cloud-switch> *)
  classList : gset string;            (* this.classList *)
  style : gmap string string;         (* this.style *)
  shadowCheck : HTMLInputElement;     (* the checkbox in the shadow tree *)
  label : gmap string string;         (* attributes of the [label] span *)
  handle : gmap string string;        (* this.handle.style *)
  checkbox : HTMLInputElement;        (* the hidden form checkbox *)
  click_listener : bool;              (* _click registered for 'click' *)
  keyup_listener : bool               (* _keyup registered for 'keyup' *)
}.

Definition with_host (m : gmap string string) (s : SwitchElement) :=
  {| host := m; classList := classList s; style := style s;
     shadowCheck := shadowCheck s; label := label s; handle := handle s;
     checkbox := checkbox s; click_listener := click_listener s;
     keyup_listener := keyup_listener s |}.

Definition with_classList (c : gset string) (s : SwitchElement) :=
  {| host := host s; classList := c; style := style s;
     shadowCheck := shadowCheck s; label := label s; handle := handle s;
     checkbox := checkbox s; click_listener := click_listener s;
     keyup_listener := keyup_listener s |}.

Definition with_style (m : gmap string string) (s : SwitchElement) :=
  {| host := host s; classList := classList s; style := m;
     shadowCheck := shadowCheck s; label := label s; handle := handle s;
     checkbox := checkbox s; click_listener := click_listener s;
     keyup_listener := keyup_listener s |}.

Definition with_shadowCheck (i : HTMLInputElement) (s : SwitchElement) :=
  {| host := host s; classList := classList s; style := style s;
     shadowCheck := i; label := label s; handle := handle s;
     checkbox := checkbox s; click_listener := click_listener s;
     keyup_listener := keyup_listener s |}.

Definition with_label (m : gmap string string) (s : SwitchElement) :=
  {| host := host s; classList := classList s; style := style s;
     shadowCheck := shadowCheck s; label := m; handle := handle s;
     checkbox := checkbox s; click_listener := click_listener s;
     keyup_listener := keyup_listener s |}.

Definition with_handle (m : gmap string string) (s : SwitchElement) :=
  {| host := host s; classList := classList s; style := style s;
     shadowCheck := shadowCheck s; label := label s; handle := m;
     checkbox := checkbox s; click_listener := click_listener s;
     keyup_listener := keyup_listener s |}.

Definition with_checkbox (i : HTMLInputElement) (s : SwitchElement) :=
  {| host := host s; classList := classList s; style := style s;
     shadowCheck := shadowCheck s; label := label s; handle := handle s;
     checkbox := i; click_listener := click_listener s;
     keyup_listener := keyup_listener s |}.

Definition with_listeners (c k : bool) (s : SwitchElement) :=
  {| host := host s; classList := classList s; style := style s;
     shadowCheck := shadowCheck s; label := label s; handle := handle s;
     checkbox := checkbox s; click_listener := c; keyup_listener := k |}.

(** ** Plain elements *)

Definition hasAttribute (m : gmap string string) (name : string) : bool :=
  bool_decide (is_Some (m !! name)).

Definition input_setAttribute (name v : string) (i : HTMLInputElement) :=
  {| attributes := <[name := v]> (attributes i);
     readonly_prop := readonly_prop i |}.

Definition input_removeAttribute (name : string) (i : HTMLInputElement) :=
  {| attributes := delete name (attributes i);
     readonly_prop := readonly_prop i |}.

Definition input_set_readonly (b : bool) (i : HTMLInputElement) :=
  {| attributes := attributes i; readonly_prop := Some b |}.

(** ** The platform *)

Class Platform := {
  (** [Number::toString], the decimal rendering of a number. *)
  NumberToString : float → string;
  (** [StringToNumber], the numeric reading of a string ([NaN] when it has
      none). *)
  StringToNumber : string → float;
  (** [Number.parseInt(getComputedStyle(this.handle).getPropertyValue('width'))],
      which the layout engine determines. *)
  handleComputedWidth : SwitchElement → float
}.

(** ** The observed attributes *)

(** [static get observedAttributes()], in the order of the source.  The
    platform invokes [attributeChangedCallback] for these names only. *)
Inductive Attr :=
  | A_disabled | A_readonly | A_checked | A_value | A_width | A_height
  | A_name | A_color | A_on_text | A_off_text.

#[global] Instance Attr_eq_dec : EqDecision Attr.
Proof. solve_decision. Defined.

Definition observedAttributes : list Attr :=
  [A_disabled; A_readonly; A_checked; A_value; A_width; A_height;
   A_name; A_color; A_on_text; A_off_text].

Definition attr_name (a : Attr) : string :=
  match a with
  | A_disabled => "disabled"
  | A_readonly => "readonly"
  | A_checked => "checked"
  | A_value => "value"
  | A_width => "width"
  | A_height => "height"
  | A_name => "name"
  | A_color => "color"
  | A_on_text => "on-text"
  | A_off_text => "off-text"
  end.

(** The observed attribute a name denotes, if any. *)
Definition observed (name : string) : option Attr :=
  List.find (λ a, String.eqb (attr_name a) name) observedAttributes.

(** A custom element reaction: attribute, old value, new value. *)
Definition reaction : Type :=
  Attr → option string → option string → SwitchElement → option SwitchElement.

(** ** The methods of [SwitchElement] *)

Section Methods.
Context `{Platform}.

(** [String(value)], as [setAttribute] and template literals apply it. *)
Definition ToString (v : value) : string :=
  match v with
  | VUndefined => "undefined"
  | VNull => "null"
  | VBoolean true => "true"
  | VBoolean false => "false"
  | VNumber n => NumberToString n
  | VString s => s
  end.

(** [Number(value)], as the arithmetic operators apply it. *)
Definition ToNumber (v : value) : float :=
  match v with
  | VUndefined => nan
  | VNull => 0
  | VBoolean true => 1
  | VBoolean false => 0
  | VNumber n => n
  | VString s => StringToNumber s
  end.

(** [this.VALID_COLORS]. *)
Definition VALID_COLORS : list string :=
  ["success"; "primary"; "secondary"; "danger"; "warning"; "info"; "dark"].

(** [this.VALID_COLORS.includes(value)]: only a string can be the same
    value as an element of the array. *)
Definition VALID_COLORS_includes (v : value) : bool :=
  match v with
  | VString c => bool_decide (c ∈ VALID_COLORS)
  | _ => false
  end.

(** *** Attribute writes on the host, with their reaction *)

Definition setAttribute (callback : reaction) (name v : string)
    (s : SwitchElement) : option SwitchElement :=
  let s' := with_host (<[name := v]> (host s)) s in
  match observed name with
  | Some a => callback a (host s !! name) (Some v) s'
  | None => Some s'
  end.

Definition removeAttribute (callback : reaction) (name : string)
    (s : SwitchElement) : option SwitchElement :=
  match host s !! name with
  | None => Some s
  | Some old =>
      let s' := with_host (delete name (host s)) s in
      match observed name with
      | Some a => callback a (Some old) None s'
      | None => Some s'
      end
  end.

(** *** Getters *)

Definition get_width (s : SwitchElement) := host s !! "width".
Definition get_height (s : SwitchElement) := host s !! "height".
Definition get_color (s : SwitchElement) := host s !! "color".
Definition get_on_text (s : SwitchElement) := label s !! "on-text".
Definition get_off_text (s : SwitchElement) := label s !! "off-text".
Definition get_name (s : SwitchElement) := host s !! "name".
Definition get_value (s : SwitchElement) := host s !! "value".
Definition get_checked (s : SwitchElement) := hasAttribute (host s) "checked".
Definition get_disabled (s : SwitchElement) := hasAttribute (host s) "disabled".
Definition get_readonly (s : SwitchElement) := hasAttribute (host s) "readonly".

(** *** Setters *)

Definition set_width (callback : reaction) (v : value) (s : SwitchElement)
    : option SwitchElement :=
  s ← setAttribute callback "width" (ToString v) s;
  let s := with_style (<["width" := ToString v +:+ "px"]> (style s)) s in
  let s := with_handle
    (<["width" := NumberToString (ToNumber v * 0.45) +:+ "px"]> (handle s)) s in
  let s := with_handle
    (<["--handle-left" :=
         NumberToString (ToNumber v - handleComputedWidth s - 4) +:+ "px"]>
       (handle s)) s in
  Some s.

Definition set_height (callback : reaction) (v : value) (s : SwitchElement)
    : option SwitchElement :=
  s ← setAttribute callback "height" (ToString v) s;
  let s := with_style (<["height" := ToString v +:+ "px"]> (style s)) s in
  let s := with_handle
    (<["height" := NumberToString (ToNumber v - 4) +:+ "px"]> (handle s)) s in
  Some s.

Definition set_color (callback : reaction) (v : value) (s : SwitchElement)
    : option SwitchElement :=
  if negb (VALID_COLORS_includes v) then Some s
  else setAttribute callback "color" (ToString v) s.

Definition set_on_text (callback : reaction) (v : value) (s : SwitchElement)
    : option SwitchElement :=
  let s := with_label (<["on-text" := ToString v]> (label s)) s in
  setAttribute callback "on-text" (ToString v) s.

Definition set_onText := set_on_text.

Definition set_off_text (callback : reaction) (v : value) (s : SwitchElement)
    : option SwitchElement :=
  let s := with_label (<["off-text" := ToString v]> (label s)) s in
  setAttribute callback "off-text" (ToString v) s.

Definition set_offText := set_off_text.

Definition set_name (callback : reaction) (v : value) (s : SwitchElement)
    : option SwitchElement :=
  let s := with_checkbox (input_setAttribute "name" (ToString v) (checkbox s)) s in
  setAttribute callback "name" (ToString v) s.

Definition set_value (callback : reaction) (v : value) (s : SwitchElement)
    : option SwitchElement :=
  s ← setAttribute callback "value" (ToString v) s;
  Some (with_checkbox (input_setAttribute "value" (ToString v) (checkbox s)) s).

Definition set_checked (callback : reaction) (v : value) (s : SwitchElement)
    : option SwitchElement :=
  let isChecked := ToBoolean v in
  if isChecked then
    s ← (if negb (hasAttribute (host s) "checked")
         then setAttribute callback "checked" "" s else Some s);
    let s := if negb (hasAttribute (attributes (shadowCheck s)) "checked")
             then with_shadowCheck (input_setAttribute "checked" "" (shadowCheck s)) s
             else s in
    let s := if negb (hasAttribute (attributes (checkbox s)) "checked")
             then with_checkbox (input_setAttribute "checked" "" (checkbox s)) s
             else s in
    Some s
  else
    s ← (if hasAttribute (host s) "checked"
         then removeAttribute callback "checked" s else Some s);
    let s := if hasAttribute (attributes (shadowCheck s)) "checked"
             then with_shadowCheck (input_removeAttribute "checked" (shadowCheck s)) s
             else s in
    let s := if hasAttribute (attributes (checkbox s)) "checked"
             then with_checkbox (input_removeAttribute "checked" (checkbox s)) s
             else s in
    Some s.

Definition set_disabled (callback : reaction) (v : value) (s : SwitchElement)
    : option SwitchElement :=
  let isDisabled := ToBoolean v in
  if isDisabled then
    s ← (if negb (hasAttribute (host s) "disabled")
         then setAttribute callback "disabled" "" s else Some s);
    let s := if negb (hasAttribute (attributes (shadowCheck s)) "disabled")
             then with_shadowCheck (input_setAttribute "disabled" "" (shadowCheck s)) s
             else s in
    let s := if negb (hasAttribute (attributes (checkbox s)) "disabled")
             then with_checkbox (input_setAttribute "disabled" "" (checkbox s)) s
             else s in
    Some s
  else
    s ← (if hasAttribute (host s) "disabled"
         then removeAttribute callback "disabled" s else Some s);
    let s := if hasAttribute (attributes (shadowCheck s)) "disabled"
             then with_shadowCheck (input_removeAttribute "disabled" (shadowCheck s)) s
             else s in
    let s := if hasAttribute (attributes (checkbox s)) "disabled"
             then with_checkbox (input_removeAttribute "disabled" (checkbox s)) s
             else s in
    Some s.

Definition set_readonly (callback : reaction) (v : value) (s : SwitchElement)
    : option SwitchElement :=
  let isReadonly := ToBoolean v in
  if isReadonly then
    s ← (if negb (hasAttribute (host s) "readonly")
         then setAttribute callback "readonly" "" s else Some s);
    let s := if negb (hasAttribute (attributes (shadowCheck s)) "readonly")
             then with_shadowCheck
                    (input_set_readonly true
                       (input_setAttribute "readonly" "" (shadowCheck s))) s
             else s in
    let s := if negb (hasAttribute (attributes (checkbox s)) "readonly")
             then with_checkbox
                    (input_set_readonly true
                       (input_setAttribute "readonly" "" (checkbox s))) s
             else s in
    Some s
  else
    s ← (if hasAttribute (host s) "readonly"
         then removeAttribute callback "readonly" s else Some s);
    let s := if hasAttribute (attributes (shadowCheck s)) "readonly"
             then with_shadowCheck
                    (input_set_readonly false
                       (input_removeAttribute "readonly" (shadowCheck s))) s
             else s in
    let s := if hasAttribute (attributes (checkbox s)) "readonly"
             then with_checkbox
                    (input_set_readonly false
                       (input_removeAttribute "readonly" (checkbox s))) s
             else s in
    Some s.

(** [this[attr] = v] for the name of an observed attribute. *)
Definition set_property (callback : reaction) (a : Attr) (v : value)
    (s : SwitchElement) : option SwitchElement :=
  match a with
  | A_disabled => set_disabled callback v s
  | A_readonly => set_readonly callback v s
  | A_checked => set_checked callback v s
  | A_value => set_value callback v s
  | A_width => set_width callback v s
  | A_height => set_height callback v s
  | A_name => set_name callback v s
  | A_color => set_color callback v s
  | A_on_text => set_on_text callback v s
  | A_off_text => set_off_text callback v s
  end.

(** *** The attribute-changed reaction *)

(** The body of [attributeChangedCallback(attr, oldValue, newValue)];
    [callback] is the reaction run by the attribute writes it performs. *)
Definition attributeChangedCallback_body (callback : reaction) (attr : Attr)
    (oldValue newValue : option string) (s : SwitchElement)
    : option SwitchElement :=
  match attr with
  | A_checked | A_disabled | A_readonly =>
      let hasAttr := bool_decide (newValue ≠ None) in
      s ← set_property callback attr (VBoolean hasAttr) s;
      if hasAttr
      then Some (with_classList ({[attr_name attr]} ∪ classList s) s)
      else Some (with_classList (classList s ∖ {[attr_name attr]}) s)
  | _ =>
      if bool_decide (oldValue ≠ newValue)
      then set_property callback attr (of_nullable newValue) s
      else Some s
  end.

(** The reaction nested at most [fuel] levels deep; [None] when the
    nesting goes deeper. *)
Fixpoint attributeChangedCallback (fuel : nat) : reaction :=
  match fuel with
  | O => λ _ _ _ _, None
  | S n => attributeChangedCallback_body (attributeChangedCallback n)
  end.

(** The reaction the platform runs. *)
Definition react : reaction := attributeChangedCallback 3.

(** *** Events *)

(** What a listener leaves behind: the element, whether it called
    [e.preventDefault()], and its return value. *)
Record handled := {
  after : SwitchElement;
  defaultPrevented : bool;
  returned : value
}.

(** A keyboard event; [which] is an [unsigned long]. *)
Record KeyboardEvent := { which : Z }.

Definition _click (s : SwitchElement) : option handled :=
  if get_readonly s || get_disabled s then
    Some {| after := s; defaultPrevented := true; returned := VUndefined |}
  else
    s ← set_checked react (VBoolean (negb (get_checked s))) s;
    Some {| after := s; defaultPrevented := false; returned := VBoolean true |}.

Definition _keyup (e : KeyboardEvent) (s : SwitchElement) : option handled :=
  if get_readonly s || get_disabled s then
    Some {| after := s; defaultPrevented := false; returned := VBoolean false |}
  else if (which e =? 32)%Z || (which e =? 13)%Z then
    let v := VBoolean (negb (get_checked s)) in
    s ← set_checked react v s;
    Some {| after := s; defaultPrevented := false; returned := v |}
  else
    Some {| after := s; defaultPrevented := false; returned := VBoolean false |}.

Inductive event :=
  | Click
  | Keyup (e : KeyboardEvent).

(** Delivery of an event to the element: the listener registered for its
    type runs, if there is one. *)
Definition dispatchEvent (ev : event) (s : SwitchElement)
    : option SwitchElement :=
  match ev with
  | Click => if click_listener s then after <$> _click s else Some s
  | Keyup e => if keyup_listener s then after <$> _keyup e s else Some s
  end.

(** [HTMLElement.prototype.click()]: a synthetic click event is dispatched
    at the element. *)
Definition click (s : SwitchElement) : option SwitchElement :=
  dispatchEvent Click s.

Definition toggle (s : SwitchElement) : option SwitchElement := click s.

(** *** Life cycle *)

(** The state [constructor()] builds around the attributes of the markup:
    the shadow tree cloned from the template and the hidden checkbox. *)
Definition constructor (markup : gmap string string) : SwitchElement :=
  {| host := markup;
     classList := ∅;
     style := ∅;
     shadowCheck :=
       {| attributes := <["type" := "checkbox"]> (<["tabindex" := "-1"]> ∅);
          readonly_prop := None |};
     label := <["label" := ""]> ∅;
     handle := ∅;
     checkbox :=
       {| attributes := <["type" := "checkbox"]> ∅; readonly_prop := None |};
     click_listener := false;
     keyup_listener := false |}.

Definition connectedCallback (s : SwitchElement) : option SwitchElement :=
  s ← (if negb (hasAttribute (host s) "role")
       then setAttribute react "role" "checkbox" s else Some s);
  s ← (if negb (hasAttribute (host s) "tabindex")
       then setAttribute react "tabindex" (ToString (VNumber 0)) s else Some s);
  s ← (if negb (hasAttribute (host s) "color")
       then setAttribute react "color" "info" s else Some s);
  s ← (if negb (hasAttribute (host s) "on-text")
       then setAttribute react "on-text" "ON" s else Some s);
  s ← (if negb (hasAttribute (host s) "off-text")
       then setAttribute react "off-text" "OFF" s else Some s);
  s ← (if negb (hasAttribute (host s) "value")
       then setAttribute react "value" (ToString (VNumber 1)) s else Some s);
  s ← set_height react (VNumber 24) s;
  s ← set_width react (VNumber 48) s;
  s ← set_checked react (VBoolean (hasAttribute (host s) "checked" || true)) s;
  s ← set_disabled react (VBoolean (hasAttribute (host s) "disabled" || false)) s;
  s ← set_readonly react (VBoolean (hasAttribute (host s) "readonly" || false)) s;
  let s := with_listeners true (keyup_listener s) s in
  let s := with_listeners (click_listener s) true s in
  Some s.

Definition disconnectedCallback (s : SwitchElement) : SwitchElement :=
  let s := with_listeners false (keyup_listener s) s in
  let s := with_listeners (click_listener s) false s in
  s.

End Methods.

(** ** A platform to evaluate the model on

    [exact_decimal] prints the exact value of a float in decimal.  On the
    integers of magnitude below 10^21 this is the text ECMAScript's
    [Number::toString] produces; for other numbers ECMAScript prints the
    shortest decimal that reads back as the same float (or an exponent form),
    which this platform does not imitate.  [integer_literal] reads an
    optionally negated decimal integer literal, rounding to the nearest float,
    and the empty string as zero; the other forms of ECMAScript's numeric
    literals are read as [NaN].  The handle has no layout box on this platform
    (the element is not rendered), so that the integer parsed from its
    computed width is [NaN]. *)

Definition Z_to_string (z : Z) : string := NilZero.string_of_int (Z.to_int z).

Fixpoint drop_zeros (l : list ascii) : list ascii :=
  match l with
  | c :: l' => if Ascii.eqb c "0"%char then drop_zeros l' else l
  | [] => []
  end.

(** The [k] digits after the decimal point of [n / 10^k], without the zeros
    at the end. *)
Definition fraction_digits (k : nat) (n : Z) : string :=
  let digits := String.list_ascii_of_string (Z_to_string n) in
  let padded := replicate (k - length digits) "0"%char ++ digits in
  String.string_of_list_ascii (rev (drop_zeros (rev padded))).

Definition exact_decimal (f : float) : string :=
  match Prim2SF f with
  | S754_nan => "NaN"
  | S754_infinity false => "Infinity"
  | S754_infinity true => "-Infinity"
  | S754_zero _ => "0"
  | S754_finite sign m e =>
      let minus := if sign then "-" else "" in
      if (0 <=? e)%Z then minus +:+ Z_to_string (Z.pos m * 2 ^ e)
      else
        let d := (2 ^ (- e))%Z in
        let whole := (Z.pos m / d)%Z in
        let part := (Z.pos m mod d)%Z in
        if (part =? 0)%Z then minus +:+ Z_to_string whole
        else minus +:+ Z_to_string whole +:+ "." +:+
             fraction_digits (Z.to_nat (- e)) (part * 5 ^ (- e))
  end.

Definition integer_literal (s : string) : float :=
  if String.eqb s "" then 0%float
  else match NilZero.int_of_string s with
       | Some i => SF2Prim (binary_normalize prec emax (Z.of_int i) 0 false)
       | None => nan
       end.

Definition reference_platform : Platform :=
  {| NumberToString := exact_decimal;
     StringToNumber := integer_literal;
     handleComputedWidth := λ _, nan |}.

(** Two elements to evaluate the model on: one created without attributes,
    one created from markup that carries [disabled]. *)
Definition fresh_switch : SwitchElement := constructor ∅.

Definition disabled_switch : SwitchElement := constructor (<["disabled" := ""]> ∅).

(** ** Vocabulary of the properties *)

Section Vocabulary.
Context `{Platform}.
Implicit Types (r : reaction) (a : Attr) (s : SwitchElement) (v : value).

Definition is_boolean (a : Attr) : bool :=
  match a with
  | A_checked | A_disabled | A_readonly => true
  | _ => false
  end.

(** The reaction [(a, old, new)] is run right after the host's attribute
    [a] became [new]. *)
Definition consistent a (new : option string) s : Prop :=
  host s !! attr_name a = new.

(** Reactions that return without writing an attribute of the host. *)
Definition quiet a (old new : option string) s : Prop :=
  consistent a new s ∧ (is_boolean a = true ∨ old = new).

(** Reactions as the setters trigger them. *)
Definition settled a (old new : option string) s : Prop :=
  consistent a new s ∧ (is_boolean a = true ∨ is_Some new).

(** Reactions to a write of [checked], [disabled] or [readonly]. *)
Definition flag a (old new : option string) s : Prop :=
  consistent a new s ∧ is_boolean a = true.

Definition agree_on (C : Attr → option string → option string → SwitchElement → Prop)
    r r' : Prop :=
  ∀ a old new s, C a old new s → r a old new s = r' a old new s.

Definition total_on (C : Attr → option string → option string → SwitchElement → Prop)
    r : Prop :=
  ∀ a old new s, C a old new s → is_Some (r a old new s).

(** From [s] to [s'] only the attribute [a] changed on the host and on the
    two checkboxes, and the listeners stayed. *)
Record frame a s s' : Prop := {
  frame_host : ∀ n, n ≠ attr_name a → host s' !! n = host s !! n;
  frame_shadowCheck : ∀ n, n ≠ attr_name a →
    attributes (shadowCheck s') !! n = attributes (shadowCheck s) !! n;
  frame_checkbox : ∀ n, n ≠ attr_name a →
    attributes (checkbox s') !! n = attributes (checkbox s) !! n;
  frame_click : click_listener s' = click_listener s;
  frame_keyup : keyup_listener s' = keyup_listener s
}.

Definition framing r : Prop :=
  ∀ a old new s s', r a old new s = Some s' → frame a s s'.

(** Presence of an attribute on the host, on the shadow checkbox and on
    the form checkbox. *)
Definition present (name : string) s : bool * bool * bool :=
  (hasAttribute (host s) name,
   hasAttribute (attributes (shadowCheck s)) name,
   hasAttribute (attributes (checkbox s)) name).

(** Reactions that do not write the host when a flag changed. *)
Definition keeps_host r : Prop :=
  ∀ a old new s s', flag a old new s → r a old new s = Some s' →
    host s' = host s.

(** The common shape of the three flag setters: a guarded write of the
    host's attribute, then the same guarded write on each checkbox. *)
Definition mirror (name : string) (b ro : bool) (i : HTMLInputElement)
    : HTMLInputElement :=
  if b then
    if hasAttribute (attributes i) name then i
    else if ro then input_set_readonly true (input_setAttribute name "" i)
         else input_setAttribute name "" i
  else
    if hasAttribute (attributes i) name
    then if ro then input_set_readonly false (input_removeAttribute name i)
         else input_removeAttribute name i
    else i.

Definition sets_readonly_prop a : bool :=
  match a with A_readonly => true | _ => false end.

Definition mirrored a (b : bool) s : SwitchElement :=
  let s := with_shadowCheck
             (mirror (attr_name a) b (sets_readonly_prop a) (shadowCheck s)) s in
  with_checkbox (mirror (attr_name a) b (sets_readonly_prop a) (checkbox s)) s.

Definition write_host r a (b : bool) s : option SwitchElement :=
  if b then
    if hasAttribute (host s) (attr_name a) then Some s
    else setAttribute r (attr_name a) "" s
  else
    if hasAttribute (host s) (attr_name a)
    then removeAttribute r (attr_name a) s
    else Some s.

(** Reactions that leave the attribute they react to as it was written. *)
Definition keeps_attr r : Prop :=
  ∀ a old x s s', consistent a (Some x) s → r a old (Some x) s = Some s' →
    host s' !! attr_name a = Some x.

(** The handle's width, respectively height, is the fixed multiple [k] of
    the width, respectively height, assigned to the switch. *)
Definition handle_width_proportional (k : float) : Prop :=
  ∀ n s, ∃ s', set_width react (VNumber n) s = Some s'
               ∧ handle s' !! "width" = Some (NumberToString (n * k) +:+ "px").

Definition handle_height_proportional (k : float) : Prop :=
  ∀ n s, ∃ s', set_height react (VNumber n) s = Some s'
               ∧ handle s' !! "height" = Some (NumberToString (n * k) +:+ "px").

(** C6 as the specification states it. *)
Definition handle_resized_proportionally : Prop :=
  (∃ k, handle_width_proportional k) ∧ (∃ k, handle_height_proportional k).

(** Delivery of a sequence of events, one after the other. *)
Fixpoint dispatchEvents (evs : list event) s : option SwitchElement :=
  match evs with
  | [] => Some s
  | ev :: evs => dispatchEvent ev s ≫= dispatchEvents evs
  end.

(** The two checkboxes carry the attribute [name] exactly when the host
    does. *)
Definition mirrors (name : string) s : Prop :=
  hasAttribute (attributes (shadowCheck s)) name = hasAttribute (host s) name
  ∧ hasAttribute (attributes (checkbox s)) name = hasAttribute (host s) name.

Definition in_sync s : Prop :=
  mirrors "checked" s ∧ mirrors "disabled" s ∧ mirrors "readonly" s.

(** What can happen to a switch: a property assignment, a run of the
    attribute-changed callback, an attribute write on the host from
    outside, a listener run, [toggle()], connection and disconnection. *)
Inductive operation :=
  | Assign (a : Attr) (v : value)
  | AttributeChanged (a : Attr) (old new : option string)
  | SetAttribute (name x : string)
  | RemoveAttribute (name : string)
  | ClickListener
  | KeyupListener (e : KeyboardEvent)
  | Toggle
  | Connected
  | Disconnected.

Definition run (op : operation) s : option SwitchElement :=
  match op with
  | Assign a v => set_property react a v s
  | AttributeChanged a old new => react a old new s
  | SetAttribute name x => setAttribute react name x s
  | RemoveAttribute name => removeAttribute react name s
  | ClickListener => after <$> _click s
  | KeyupListener e => after <$> _keyup e s
  | Toggle => toggle s
  | Connected => connectedCallback s
  | Disconnected => Some (disconnectedCallback s)
  end.

(** *** Vocabulary of the further properties *)

(** [this[attr]], read through the getter of an observed attribute. *)
Definition get_property (a : Attr) s : value :=
  match a with
  | A_disabled => VBoolean (get_disabled s)
  | A_readonly => VBoolean (get_readonly s)
  | A_checked => VBoolean (get_checked s)
  | A_value => of_nullable (get_value s)
  | A_width => of_nullable (get_width s)
  | A_height => of_nullable (get_height s)
  | A_name => of_nullable (get_name s)
  | A_color => of_nullable (get_color s)
  | A_on_text => of_nullable (get_on_text s)
  | A_off_text => of_nullable (get_off_text s)
  end.

(** The copy a setter keeps of a string-valued attribute outside the host:
    [name] and [value] on the form checkbox, the two texts on the label. *)
Definition mirror_of (a : Attr) s : option (option string) :=
  match a with
  | A_name => Some (attributes (checkbox s) !! "name")
  | A_value => Some (attributes (checkbox s) !! "value")
  | A_on_text => Some (label s !! "on-text")
  | A_off_text => Some (label s !! "off-text")
  | _ => None
  end.

Definition agreed a s : Prop :=
  ∀ x, mirror_of a s = Some x → x = host s !! attr_name a.

(** The form checkbox carries the name and the value of the host, and the
    label its two texts. *)
Definition text_in_sync s : Prop :=
  attributes (checkbox s) !! "name" = host s !! "name"
  ∧ attributes (checkbox s) !! "value" = host s !! "value"
  ∧ label s !! "on-text" = host s !! "on-text"
  ∧ label s !! "off-text" = host s !! "off-text".

(** Reactions that leave the copy of the attribute they react to as the
    setter wrote it. *)
Definition keeps_mirror r : Prop :=
  ∀ a old x s s', consistent a (Some x) s → mirror_of a s = Some (Some x) →
    r a old (Some x) s = Some s' → mirror_of a s' = Some (Some x).

(** From [s] to [s'] the label changed at the attribute [a] only. *)
Definition label_frame a s s' : Prop :=
  ∀ n, n ≠ attr_name a → label s' !! n = label s !! n.

Definition label_framing r : Prop :=
  ∀ a old new s s', r a old new s = Some s' → label_frame a s s'.

(** One guarded default of [connectedCallback]. *)
Definition default_attribute (name x : string) s : option SwitchElement :=
  if negb (hasAttribute (host s) name) then setAttribute react name x s
  else Some s.

(** The key codes that toggle the switch. *)
Definition toggling (ev : event) : bool :=
  match ev with
  | Click => true
  | Keyup e => (which e =? 32)%Z || (which e =? 13)%Z
  end.

(** The observed attributes that [removeAttribute] cannot remove: the
    string-valued ones other than [color]. *)
Definition comes_back (name : string) : bool :=
  match observed name with
  | Some a => negb (is_boolean a) && negb (bool_decide (a = A_color))
  | None => false
  end.

(** A fresh switch with both listeners registered, to evaluate the model
    on. *)
Definition listening_switch : SwitchElement :=
  with_listeners true true fresh_switch.

End Vocabulary.

(** ** Depth of the reaction *)

Section Depth.
Context `{Platform}.
Implicit Types (r : reaction) (a : Attr) (s : SwitchElement) (v : value).

Lemma observed_attr_name a : observed (attr_name a) = Some a.
Proof. by destruct a. Qed.

Lemma hasAttribute_lookup (m : gmap string string) name :
  hasAttribute m name = bool_decide (m !! name ≠ None).
Proof.
  unfold hasAttribute. apply bool_decide_ext.
  rewrite is_Some_alt. by destruct (m !! name).
Qed.

Lemma hasAttribute_true (m : gmap string string) name :
  hasAttribute m name = true ↔ is_Some (m !! name).
Proof. unfold hasAttribute. by rewrite bool_decide_eq_true. Qed.

Lemma hasAttribute_false (m : gmap string string) name :
  hasAttribute m name = false ↔ m !! name = None.
Proof.
  unfold hasAttribute. rewrite bool_decide_eq_false. symmetry. apply eq_None_not_Some.
Qed.

Lemma hasAttribute_insert (m : gmap string string) name name' x :
  hasAttribute (<[name := x]> m) name' =
  if decide (name = name') then true else hasAttribute m name'.
Proof.
  unfold hasAttribute. rewrite lookup_insert. case_decide; [|done].
  by apply bool_decide_eq_true.
Qed.

Lemma hasAttribute_delete (m : gmap string string) name name' :
  hasAttribute (delete name m) name' =
  if decide (name = name') then false else hasAttribute m name'.
Proof.
  unfold hasAttribute. rewrite lookup_delete. case_decide; [|done].
  apply bool_decide_eq_false. by intros [? ?].
Qed.

(** An attribute write on the host depends on the reaction through the one
    call it triggers. *)
Lemma setAttribute_ext r r' a x s :
  r a (host s !! attr_name a) (Some x) (with_host (<[attr_name a := x]> (host s)) s)
  = r' a (host s !! attr_name a) (Some x) (with_host (<[attr_name a := x]> (host s)) s) →
  setAttribute r (attr_name a) x s = setAttribute r' (attr_name a) x s.
Proof. unfold setAttribute. by rewrite observed_attr_name. Qed.

Lemma removeAttribute_ext r r' a s :
  (∀ old, host s !! attr_name a = Some old →
     r a (Some old) None (with_host (delete (attr_name a) (host s)) s)
     = r' a (Some old) None (with_host (delete (attr_name a) (host s)) s)) →
  removeAttribute r (attr_name a) s = removeAttribute r' (attr_name a) s.
Proof.
  unfold removeAttribute. rewrite observed_attr_name.
  destruct (host s !! attr_name a); [intros E; by apply E|done].
Qed.

Lemma setAttribute_total r a x s :
  is_Some (r a (host s !! attr_name a) (Some x)
             (with_host (<[attr_name a := x]> (host s)) s)) →
  is_Some (setAttribute r (attr_name a) x s).
Proof. unfold setAttribute. by rewrite observed_attr_name. Qed.

Lemma removeAttribute_total r a s :
  (∀ old, host s !! attr_name a = Some old →
     is_Some (r a (Some old) None (with_host (delete (attr_name a) (host s)) s))) →
  is_Some (removeAttribute r (attr_name a) s).
Proof.
  unfold removeAttribute. rewrite observed_attr_name.
  destruct (host s !! attr_name a); [intros E; by apply E|done].
Qed.

Lemma settled_setAttribute a x s old :
  settled a old (Some x) (with_host (<[attr_name a := x]> (host s)) s).
Proof. split; [apply lookup_insert_eq|right; eauto]. Qed.

Lemma flag_setAttribute a x s old :
  is_boolean a = true →
  flag a old (Some x) (with_host (<[attr_name a := x]> (host s)) s).
Proof. split; [apply lookup_insert_eq|done]. Qed.

Lemma flag_removeAttribute a s old :
  is_boolean a = true →
  flag a old None (with_host (delete (attr_name a) (host s)) s).
Proof. split; [apply lookup_delete_eq|done]. Qed.

Lemma flag_quiet a old new s : flag a old new s → quiet a old new s.
Proof. intros [Hc Hb]. split; [done|by left]. Qed.

Lemma flag_settled a old new s : flag a old new s → settled a old new s.
Proof. intros [Hc Hb]. split; [done|by left]. Qed.

Lemma agree_on_mono (C C' : Attr → option string → option string → SwitchElement → Prop)
    r r' :
  (∀ a old new s, C' a old new s → C a old new s) →
  agree_on C r r' → agree_on C' r r'.
Proof. intros HC Hr a old new s HC'. by apply Hr, HC. Qed.

Lemma total_on_mono (C C' : Attr → option string → option string → SwitchElement → Prop)
    r :
  (∀ a old new s, C' a old new s → C a old new s) →
  total_on C r → total_on C' r.
Proof. intros HC Hr a old new s HC'. by apply Hr, HC. Qed.

Lemma is_Some_bind {A B} (m : option A) (k : A → option B) :
  is_Some m → (∀ x, is_Some (k x)) → is_Some (m ≫= k).
Proof. intros [x ->] Hk. apply Hk. Qed.

Lemma bind_ext {A B} (m m' : option A) (k : A → option B) :
  m = m' → m ≫= k = m' ≫= k.
Proof. by intros ->. Qed.

(** *** What each setter asks of the reaction *)

Local Ltac split_setter :=
  repeat match goal with
    | |- context [ToBoolean ?v] => destruct (ToBoolean v); simpl
    | |- context [VALID_COLORS_includes ?v] =>
        destruct (VALID_COLORS_includes v); simpl
    | |- context [hasAttribute (host ?s) ?n] =>
        destruct (hasAttribute (host s) n) eqn:?; simpl
    end.

Lemma set_property_boolean_ext r r' a v s :
  is_boolean a = true → agree_on flag r r' →
  set_property r a v s = set_property r' a v s.
Proof.
  intros Hb Hr.
  destruct a; try discriminate; simpl;
    unfold set_checked, set_disabled, set_readonly; split_setter; try done;
    apply bind_ext.
  all: first
    [ by apply (setAttribute_ext r r' A_disabled), Hr,
           flag_setAttribute
    | by apply (setAttribute_ext r r' A_readonly), Hr,
           flag_setAttribute
    | by apply (setAttribute_ext r r' A_checked), Hr,
           flag_setAttribute
    | by apply (removeAttribute_ext r r' A_disabled); intros; apply Hr,
           flag_removeAttribute
    | by apply (removeAttribute_ext r r' A_readonly); intros; apply Hr,
           flag_removeAttribute
    | by apply (removeAttribute_ext r r' A_checked); intros; apply Hr,
           flag_removeAttribute ].
Qed.

Lemma set_property_boolean_total r a v s :
  is_boolean a = true → total_on flag r → is_Some (set_property r a v s).
Proof.
  intros Hb Hr.
  destruct a; try discriminate; simpl;
    unfold set_checked, set_disabled, set_readonly; split_setter; try done;
    (apply is_Some_bind; [|done]).
  all: first
    [ by apply (setAttribute_total r A_disabled), Hr,
           flag_setAttribute
    | by apply (setAttribute_total r A_readonly), Hr,
           flag_setAttribute
    | by apply (setAttribute_total r A_checked), Hr,
           flag_setAttribute
    | by apply (removeAttribute_total r A_disabled); intros; apply Hr,
           flag_removeAttribute
    | by apply (removeAttribute_total r A_readonly); intros; apply Hr,
           flag_removeAttribute
    | by apply (removeAttribute_total r A_checked); intros; apply Hr,
           flag_removeAttribute ].
Qed.

Lemma set_property_ext r r' a v s :
  agree_on settled r r' → set_property r a v s = set_property r' a v s.
Proof.
  intros Hr. destruct (is_boolean a) eqn:Hb.
  { apply set_property_boolean_ext; [done|].
    eapply agree_on_mono; [apply flag_settled|done]. }
  destruct a; try discriminate; simpl;
    unfold set_value, set_width, set_height, set_name, set_color,
      set_on_text, set_off_text; split_setter; try done; try apply bind_ext.
  - apply (setAttribute_ext r r' A_value), Hr, settled_setAttribute.
  - apply (setAttribute_ext r r' A_width), Hr, settled_setAttribute.
  - apply (setAttribute_ext r r' A_height), Hr, settled_setAttribute.
  - apply (setAttribute_ext r r' A_name), Hr, settled_setAttribute.
  - apply (setAttribute_ext r r' A_color), Hr, settled_setAttribute.
  - apply (setAttribute_ext r r' A_on_text), Hr, settled_setAttribute.
  - apply (setAttribute_ext r r' A_off_text), Hr, settled_setAttribute.
Qed.

Lemma set_property_total r a v s :
  total_on settled r → is_Some (set_property r a v s).
Proof.
  intros Hr. destruct (is_boolean a) eqn:Hb.
  { apply set_property_boolean_total; [done|].
    eapply total_on_mono; [apply flag_settled|done]. }
  destruct a; try discriminate; simpl;
    unfold set_value, set_width, set_height, set_name, set_color,
      set_on_text, set_off_text; split_setter; try done;
    try (apply is_Some_bind; [|done]).
  - apply (setAttribute_total r A_value), Hr, settled_setAttribute.
  - apply (setAttribute_total r A_width), Hr, settled_setAttribute.
  - apply (setAttribute_total r A_height), Hr, settled_setAttribute.
  - apply (setAttribute_total r A_name), Hr, settled_setAttribute.
  - apply (setAttribute_total r A_color), Hr, settled_setAttribute.
  - apply (setAttribute_total r A_on_text), Hr, settled_setAttribute.
  - apply (setAttribute_total r A_off_text), Hr, settled_setAttribute.
Qed.

(** When the attribute already holds the value assigned, the setter of a
    string-valued attribute triggers a reaction with equal old and new
    values. *)
Lemma quiet_setAttribute a x s :
  host s !! attr_name a = Some x →
  quiet a (host s !! attr_name a) (Some x)
    (with_host (<[attr_name a := x]> (host s)) s).
Proof. intros E. split; [apply lookup_insert_eq|by right]. Qed.

Lemma set_property_current_ext r r' a v s :
  host s !! attr_name a = Some (ToString v) →
  agree_on quiet r r' → set_property r a v s = set_property r' a v s.
Proof.
  intros E Hr. destruct (is_boolean a) eqn:Hb.
  { apply set_property_boolean_ext; [done|].
    eapply agree_on_mono; [apply flag_quiet|done]. }
  destruct a; try discriminate; simpl;
    unfold set_value, set_width, set_height, set_name, set_color,
      set_on_text, set_off_text; split_setter; try done; try apply bind_ext.
  - by apply (setAttribute_ext r r' A_value), Hr, quiet_setAttribute.
  - by apply (setAttribute_ext r r' A_width), Hr, quiet_setAttribute.
  - by apply (setAttribute_ext r r' A_height), Hr, quiet_setAttribute.
  - by apply (setAttribute_ext r r' A_name), Hr, (quiet_setAttribute A_name).
  - by apply (setAttribute_ext r r' A_color), Hr, quiet_setAttribute.
  - by apply (setAttribute_ext r r' A_on_text), Hr, (quiet_setAttribute A_on_text).
  - by apply (setAttribute_ext r r' A_off_text), Hr, (quiet_setAttribute A_off_text).
Qed.

Lemma set_property_current_total r a v s :
  host s !! attr_name a = Some (ToString v) →
  total_on quiet r → is_Some (set_property r a v s).
Proof.
  intros E Hr. destruct (is_boolean a) eqn:Hb.
  { apply set_property_boolean_total; [done|].
    eapply total_on_mono; [apply flag_quiet|done]. }
  destruct a; try discriminate; simpl;
    unfold set_value, set_width, set_height, set_name, set_color,
      set_on_text, set_off_text; split_setter; try done;
    try (apply is_Some_bind; [|done]).
  - by apply (setAttribute_total r A_value), Hr, quiet_setAttribute.
  - by apply (setAttribute_total r A_width), Hr, quiet_setAttribute.
  - by apply (setAttribute_total r A_height), Hr, quiet_setAttribute.
  - by apply (setAttribute_total r A_name), Hr, (quiet_setAttribute A_name).
  - by apply (setAttribute_total r A_color), Hr, quiet_setAttribute.
  - by apply (setAttribute_total r A_on_text), Hr, (quiet_setAttribute A_on_text).
  - by apply (setAttribute_total r A_off_text), Hr, (quiet_setAttribute A_off_text).
Qed.

(** A flag setter whose target state the host already shows writes no
    attribute of the host. *)
Lemma set_property_flag_current r r' a v s :
  is_boolean a = true →
  hasAttribute (host s) (attr_name a) = ToBoolean v →
  set_property r a v s = set_property r' a v s
  ∧ is_Some (set_property r a v s).
Proof.
  intros Hb E.
  destruct a; try discriminate; simpl in *;
    unfold set_checked, set_disabled, set_readonly;
    rewrite E; by destruct (ToBoolean v).
Qed.

(** *** What the callback asks of the reaction *)

Lemma consistent_hasAttribute a new s :
  consistent a new s →
  hasAttribute (host s) (attr_name a) = bool_decide (new ≠ None).
Proof. intros <-. apply hasAttribute_lookup. Qed.

Lemma body_boolean r a old new s :
  is_boolean a = true →
  attributeChangedCallback_body r a old new s =
  set_property r a (VBoolean (bool_decide (new ≠ None))) s ≫= λ s,
    if bool_decide (new ≠ None)
    then Some (with_classList ({[attr_name a]} ∪ classList s) s)
    else Some (with_classList (classList s ∖ {[attr_name a]}) s).
Proof. by destruct a. Qed.

Lemma body_string r a old new s :
  is_boolean a = false →
  attributeChangedCallback_body r a old new s =
  if bool_decide (old ≠ new)
  then set_property r a (of_nullable new) s else Some s.
Proof. by destruct a. Qed.

Lemma body_quiet r r' a old new s :
  quiet a old new s →
  attributeChangedCallback_body r a old new s
  = attributeChangedCallback_body r' a old new s
  ∧ is_Some (attributeChangedCallback_body r a old new s).
Proof.
  intros [Hc Hq]. destruct (is_boolean a) eqn:Hb.
  - apply consistent_hasAttribute in Hc.
    destruct (set_property_flag_current r r' a
                (VBoolean (bool_decide (new ≠ None))) s Hb Hc) as [E [s' Hs']].
    rewrite !body_boolean, <-E, Hs' by done. simpl. by case_bool_decide.
  - destruct Hq as [?| ->]; [congruence|].
    rewrite !body_string by done.
    by rewrite bool_decide_eq_false_2 by (by intros ?).
Qed.

Lemma body_settled r r' a old new s :
  settled a old new s → agree_on quiet r r' →
  attributeChangedCallback_body r a old new s
  = attributeChangedCallback_body r' a old new s.
Proof.
  intros [Hc Hq] Hr. destruct (is_boolean a) eqn:Hb.
  { by apply body_quiet, flag_quiet. }
  destruct Hq as [?|[x ->]]; [congruence|].
  rewrite !body_string by done. case_bool_decide; [|done].
  by apply set_property_current_ext.
Qed.

Lemma body_settled_total r a old new s :
  settled a old new s → total_on quiet r →
  is_Some (attributeChangedCallback_body r a old new s).
Proof.
  intros [Hc Hq] Hr. destruct (is_boolean a) eqn:Hb.
  { by apply (body_quiet r r), flag_quiet. }
  destruct Hq as [?|[x ->]]; [congruence|].
  rewrite !body_string by done. case_bool_decide; [|done].
  by apply set_property_current_total.
Qed.

Lemma body_ext r r' a old new s :
  agree_on settled r r' →
  attributeChangedCallback_body r a old new s
  = attributeChangedCallback_body r' a old new s.
Proof.
  intros Hr. destruct (is_boolean a) eqn:Hb.
  - rewrite !body_boolean by done. by apply bind_ext, set_property_ext.
  - rewrite !body_string by done. case_bool_decide; [|done].
    by apply set_property_ext.
Qed.

Lemma body_total r a old new s :
  total_on settled r →
  is_Some (attributeChangedCallback_body r a old new s).
Proof.
  intros Hr. destruct (is_boolean a) eqn:Hb.
  - rewrite body_boolean by done.
    apply is_Some_bind; [by apply set_property_total|].
    intros; by case_bool_decide.
  - rewrite body_string by done. case_bool_decide; [|done].
    by apply set_property_total.
Qed.

(** *** Three levels are enough *)

Lemma attributeChangedCallback_quiet k a old new s :
  quiet a old new s →
  attributeChangedCallback (S k) a old new s
  = attributeChangedCallback 1 a old new s
  ∧ is_Some (attributeChangedCallback (S k) a old new s).
Proof. intros Hq. simpl. by apply body_quiet. Qed.

Lemma attributeChangedCallback_settled k a old new s :
  settled a old new s →
  attributeChangedCallback (S (S k)) a old new s
  = attributeChangedCallback 2 a old new s
  ∧ is_Some (attributeChangedCallback (S (S k)) a old new s).
Proof.
  intros Hs. split.
  - change (attributeChangedCallback_body (attributeChangedCallback (S k)) a old new s
            = attributeChangedCallback_body (attributeChangedCallback 1) a old new s).
    apply body_settled; [done|].
    intros ????; by apply attributeChangedCallback_quiet.
  - change (is_Some (attributeChangedCallback_body
                       (attributeChangedCallback (S k)) a old new s)).
    apply body_settled_total; [done|].
    intros ????; by apply attributeChangedCallback_quiet.
Qed.

Lemma attributeChangedCallback_enough k a old new s :
  attributeChangedCallback (3 + k) a old new s
  = attributeChangedCallback 3 a old new s
  ∧ is_Some (attributeChangedCallback (3 + k) a old new s).
Proof.
  split.
  - change (attributeChangedCallback_body (attributeChangedCallback (S (S k))) a old new s
            = attributeChangedCallback_body (attributeChangedCallback 2) a old new s).
    apply body_ext. intros ????; by apply attributeChangedCallback_settled.
  - change (is_Some (attributeChangedCallback_body
                       (attributeChangedCallback (S (S k))) a old new s)).
    apply body_total. intros ????; by apply attributeChangedCallback_settled.
Qed.

(** [react] satisfies the recursive equation of the source: the attribute
    writes inside the callback run the callback itself. *)
Lemma react_unfold a old new s :
  react a old new s = attributeChangedCallback_body react a old new s.
Proof.
  symmetry. apply (attributeChangedCallback_enough 1 a old new s).
Qed.

Lemma react_total a old new s : is_Some (react a old new s).
Proof. apply (attributeChangedCallback_enough 0 a old new s). Qed.

End Depth.

(** ** What an operation on one attribute leaves alone *)

Section Frame.
Context `{Platform}.
Implicit Types (r : reaction) (a : Attr) (s : SwitchElement) (v : value).

Lemma frame_refl a s : frame a s s.
Proof. by split. Qed.

Lemma frame_trans a s1 s2 s3 : frame a s1 s2 → frame a s2 s3 → frame a s1 s3.
Proof.
  intros [] []. split; intros; try (etrans; eauto; fail).
  - etrans; [apply frame_host1|apply frame_host0]; done.
  - etrans; [apply frame_shadowCheck1|apply frame_shadowCheck0]; done.
  - etrans; [apply frame_checkbox1|apply frame_checkbox0]; done.
Qed.

Local Ltac frame_step :=
  split; simpl; intros;
  rewrite ?lookup_insert_ne, ?lookup_delete_ne by done; done.

Lemma setAttribute_frame r a x s s' :
  framing r → setAttribute r (attr_name a) x s = Some s' → frame a s s'.
Proof.
  unfold setAttribute. rewrite observed_attr_name. intros Hr E.
  eapply frame_trans; [|by eapply Hr]. frame_step.
Qed.

Lemma removeAttribute_frame r a s s' :
  framing r → removeAttribute r (attr_name a) s = Some s' → frame a s s'.
Proof.
  unfold removeAttribute. rewrite observed_attr_name. intros Hr E.
  destruct (host s !! attr_name a); [|injection E as <-; apply frame_refl].
  eapply frame_trans; [|by eapply Hr]. frame_step.
Qed.

Lemma set_property_frame r a v s s' :
  framing r → set_property r a v s = Some s' → frame a s s'.
Proof.
  intros Hr E.
  destruct a; simpl in E;
    unfold set_checked, set_disabled, set_readonly, set_value, set_width,
      set_height, set_name, set_color, set_on_text, set_off_text in E;
    repeat case_match; simplify_option_eq;
    repeat match goal with
      | E : setAttribute _ _ _ _ = Some _ |- frame ?a _ _ =>
          apply (setAttribute_frame _ a) in E; [|done]
      | E : removeAttribute _ _ _ = Some _ |- frame ?a _ _ =>
          apply (removeAttribute_frame _ a) in E; [|done]
      end;
    repeat case_match;
    try (eapply frame_trans; [eassumption|]); try apply frame_refl;
    try frame_step.
  all: eapply frame_trans; [|eassumption]; frame_step.
Qed.

Lemma body_framing r : framing r → framing (attributeChangedCallback_body r).
Proof.
  intros Hr a old new s s' E. destruct (is_boolean a) eqn:Hb.
  - rewrite body_boolean in E by done.
    destruct (set_property r a _ s) as [s1|] eqn:E1; [|done]. simpl in E.
    apply set_property_frame in E1; [|done].
    eapply frame_trans; [done|].
    case_bool_decide; injection E as <-; by split.
  - rewrite body_string in E by done. case_bool_decide.
    + by eapply set_property_frame.
    + injection E as <-. apply frame_refl.
Qed.

Lemma attributeChangedCallback_framing fuel :
  framing (attributeChangedCallback fuel).
Proof.
  induction fuel as [|fuel IH]; [by intros ?????|]. by apply body_framing.
Qed.

Lemma react_framing : framing react.
Proof. apply attributeChangedCallback_framing. Qed.

(** *** The three flags *)

Lemma set_property_flag_current_host r a v s s' :
  is_boolean a = true →
  hasAttribute (host s) (attr_name a) = ToBoolean v →
  set_property r a v s = Some s' → host s' = host s.
Proof.
  intros Hb E.
  destruct a; try discriminate; simpl in *;
    unfold set_checked, set_disabled, set_readonly;
    rewrite E; destruct (ToBoolean v); simpl; intros [= <-];
    by repeat case_match.
Qed.

Lemma body_keeps_host r : keeps_host (attributeChangedCallback_body r).
Proof.
  intros a old new s s' [Hc Hb] E.
  apply consistent_hasAttribute in Hc. rewrite body_boolean in E by done.
  destruct (set_property r a _ s) as [s1|] eqn:E1; [|done]. simpl in E.
  apply set_property_flag_current_host in E1; [|done..].
  by case_bool_decide; injection E as <-.
Qed.

Lemma react_keeps_host : keeps_host react.
Proof. apply body_keeps_host. Qed.

Lemma with_shadowCheck_id s : with_shadowCheck (shadowCheck s) s = s.
Proof. by destruct s. Qed.

Lemma with_checkbox_id s : with_checkbox (checkbox s) s = s.
Proof. by destruct s. Qed.

Lemma set_property_flag_unfold r a v s :
  is_boolean a = true →
  set_property r a v s =
  write_host r a (ToBoolean v) s ≫= λ s, Some (mirrored a (ToBoolean v) s).
Proof.
  intros Hb.
  destruct a; try discriminate; simpl;
    unfold set_checked, set_disabled, set_readonly, write_host;
    destruct (ToBoolean v); simpl;
    destruct (hasAttribute (host s) _); simpl;
    try (destruct (setAttribute r _ _ s) as [s1|]; [simpl|done]);
    try (destruct (removeAttribute r _ s) as [s1|]; [simpl|done]);
    f_equal; unfold mirrored, mirror;
    match goal with |- context [shadowCheck ?s] => destruct s; simpl end;
    repeat (match goal with
            | |- context [hasAttribute (attributes ?i) ?n] =>
                is_var i; destruct (hasAttribute (attributes i) n); simpl
            end);
    done.
Qed.

Lemma mirror_present name b ro i :
  hasAttribute (attributes (mirror name b ro i)) name = b.
Proof.
  unfold mirror.
  destruct b, (hasAttribute (attributes i) name) eqn:E, ro; simpl; try done.
  - rewrite hasAttribute_insert. by rewrite decide_True.
  - rewrite hasAttribute_insert. by rewrite decide_True.
  - rewrite hasAttribute_delete. by rewrite decide_True.
  - rewrite hasAttribute_delete. by rewrite decide_True.
Qed.

Lemma mirror_other name b ro i n :
  n ≠ name → attributes (mirror name b ro i) !! n = attributes i !! n.
Proof.
  intros Hn. unfold mirror.
  destruct b, (hasAttribute (attributes i) name), ro; simpl;
    by rewrite ?lookup_insert_ne, ?lookup_delete_ne.
Qed.

Lemma mirror_current name b ro i :
  hasAttribute (attributes i) name = b → mirror name b ro i = i.
Proof. intros <-. unfold mirror. by destruct (hasAttribute _ _). Qed.

Lemma mirrored_present a b s :
  present (attr_name a) (mirrored a b s)
  = (hasAttribute (host s) (attr_name a), b, b).
Proof. unfold present, mirrored. simpl. by rewrite !mirror_present. Qed.

Lemma mirrored_current a b s :
  hasAttribute (attributes (shadowCheck s)) (attr_name a) = b →
  hasAttribute (attributes (checkbox s)) (attr_name a) = b →
  mirrored a b s = s.
Proof.
  intros E1 E2. unfold mirrored. simpl.
  rewrite !mirror_current by done. by destruct s.
Qed.

Lemma write_host_current r a b s :
  hasAttribute (host s) (attr_name a) = b → write_host r a b s = Some s.
Proof. intros <-. unfold write_host. by destruct (hasAttribute _ _). Qed.

Lemma write_host_present r a b s s' :
  is_boolean a = true → keeps_host r →
  write_host r a b s = Some s' →
  hasAttribute (host s') (attr_name a) = b.
Proof.
  intros Hb Hr. unfold write_host.
  destruct b, (hasAttribute (host s) (attr_name a)) eqn:Hh;
    try (by intros [= <-]).
  - unfold setAttribute. rewrite observed_attr_name. intros E.
    apply Hr in E; [|by apply flag_setAttribute]. rewrite E. simpl.
    rewrite hasAttribute_insert. by rewrite decide_True.
  - unfold removeAttribute. rewrite observed_attr_name.
    destruct (host s !! attr_name a) eqn:El.
    + intros E. apply Hr in E; [|by apply flag_removeAttribute].
      rewrite E. simpl. rewrite hasAttribute_delete. by rewrite decide_True.
    + intros [= <-]. by apply hasAttribute_false.
Qed.

(** A flag setter leaves the flag on all three elements in the state
    assigned. *)
Lemma set_property_present r a v s s' :
  is_boolean a = true → keeps_host r →
  set_property r a v s = Some s' →
  present (attr_name a) s' = (ToBoolean v, ToBoolean v, ToBoolean v).
Proof.
  intros Hb Hr. rewrite set_property_flag_unfold by done.
  destruct (write_host r a _ s) as [s1|] eqn:E; [|done].
  intros [= <-]. rewrite mirrored_present.
  by erewrite write_host_present.
Qed.

(** Assigning a flag the state all three elements already show changes
    nothing and triggers no reaction. *)
Lemma set_property_current r a v s :
  is_boolean a = true →
  present (attr_name a) s = (ToBoolean v, ToBoolean v, ToBoolean v) →
  set_property r a v s = Some s.
Proof.
  intros Hb [= E1 E2 E3]. rewrite set_property_flag_unfold by done.
  rewrite write_host_current by done. simpl.
  by rewrite mirrored_current.
Qed.

(** *** String-valued attributes *)

Lemma setAttribute_keeps r a x s s' :
  keeps_attr r → setAttribute r (attr_name a) x s = Some s' →
  host s' !! attr_name a = Some x.
Proof.
  unfold setAttribute. rewrite observed_attr_name. intros Hr E.
  eapply Hr; [|done]. apply lookup_insert_eq.
Qed.

Lemma set_property_keeps r a v s s' :
  keeps_attr r → is_boolean a = false →
  (a = A_color → VALID_COLORS_includes v = true) →
  set_property r a v s = Some s' →
  host s' !! attr_name a = Some (ToString v).
Proof.
  intros Hr Hb Hc E.
  destruct a; try discriminate; simpl in E;
    unfold set_value, set_width, set_height, set_name, set_color,
      set_on_text, set_off_text in E;
    try (rewrite Hc in E by done; simpl in E);
    try (destruct (setAttribute r _ _ s) as [s1|] eqn:E1; [|done];
         simpl in E; injection E as <-; simpl).
  all: match goal with
       | E : setAttribute _ _ _ _ = Some _ |- _ =>
           first [ by apply (setAttribute_keeps r A_value) in E
                 | by apply (setAttribute_keeps r A_width) in E
                 | by apply (setAttribute_keeps r A_height) in E
                 | by apply (setAttribute_keeps r A_name) in E
                 | by apply (setAttribute_keeps r A_color) in E
                 | by apply (setAttribute_keeps r A_on_text) in E
                 | by apply (setAttribute_keeps r A_off_text) in E ]
       end.
Qed.

Lemma body_keeps_attr r :
  keeps_attr r → keeps_attr (attributeChangedCallback_body r).
Proof.
  intros Hr a old x s s' Hc E. destruct (is_boolean a) eqn:Hb.
  - erewrite body_keeps_host; [done| |done]. by split.
  - rewrite body_string in E by done. case_bool_decide.
    + destruct (decide (a = A_color ∧ VALID_COLORS_includes (VString x) = false))
        as [[-> Hv]|Hv].
      * simpl in E. unfold set_color in E. rewrite Hv in E.
        by injection E as <-.
      * eapply (set_property_keeps r a (VString x)); [done..| |done].
        intros ->. destruct (VALID_COLORS_includes _); [done|].
        by destruct Hv.
    + by injection E as <-.
Qed.

Lemma attributeChangedCallback_keeps_attr fuel :
  keeps_attr (attributeChangedCallback fuel).
Proof.
  induction fuel as [|fuel IH]; [by intros ??????|]. by apply body_keeps_attr.
Qed.

Lemma react_keeps_attr : keeps_attr react.
Proof. apply attributeChangedCallback_keeps_attr. Qed.

(** *** Totality of the operations run by the platform *)

Lemma setAttribute_react_total name x s : is_Some (setAttribute react name x s).
Proof.
  unfold setAttribute. destruct (observed name); [apply react_total|done].
Qed.

Lemma removeAttribute_react_total name s : is_Some (removeAttribute react name s).
Proof.
  unfold removeAttribute.
  destruct (host s !! name); [|done].
  destruct (observed name); [apply react_total|done].
Qed.

Lemma set_property_react_total a v s : is_Some (set_property react a v s).
Proof. apply set_property_total. intros ?????. apply react_total. Qed.

End Frame.

(** ** Properties of the switch *)

Section Properties.
Context `{Platform}.
Implicit Types (r : reaction) (a : Attr) (s : SwitchElement) (v : value).

(** *** Toggling *)

Lemma set_checked_spec v s :
  ∃ s', set_checked react v s = Some s'
        ∧ present "checked" s' = (ToBoolean v, ToBoolean v, ToBoolean v)
        ∧ frame A_checked s s'.
Proof.
  destruct (set_property_react_total A_checked v s) as [s' E].
  exists s'. split_and!; [done| |].
  - apply (set_property_present react A_checked v s s');
      [done|apply react_keeps_host|done].
  - apply (set_property_frame react A_checked v s s');
      [apply react_framing|done].
Qed.

Lemma frame_get_disabled a s s' :
  attr_name a ≠ "disabled" → frame a s s' → get_disabled s' = get_disabled s.
Proof.
  intros Hn Hf. unfold get_disabled, hasAttribute.
  by rewrite (frame_host _ _ _ Hf).
Qed.

Lemma frame_get_readonly a s s' :
  attr_name a ≠ "readonly" → frame a s s' → get_readonly s' = get_readonly s.
Proof.
  intros Hn Hf. unfold get_readonly, hasAttribute.
  by rewrite (frame_host _ _ _ Hf).
Qed.

Lemma frame_get_checked a s s' :
  attr_name a ≠ "checked" → frame a s s' → get_checked s' = get_checked s.
Proof.
  intros Hn Hf. unfold get_checked, hasAttribute.
  by rewrite (frame_host _ _ _ Hf).
Qed.

(** C1: on a switch whose [disabled] or [readonly] flag is set, the click
    listener, the keyup listener and [toggle()] leave the element, and so
    its checked state, as it was. *)
Theorem toggle_rejected_when_disabled_or_readonly (e : KeyboardEvent) s :
  get_disabled s = true ∨ get_readonly s = true →
  after <$> _click s = Some s
  ∧ after <$> _keyup e s = Some s
  ∧ toggle s = Some s
  ∧ ∀ s', (after <$> _click s = Some s' ∨ after <$> _keyup e s = Some s'
           ∨ toggle s = Some s') →
          get_checked s' = get_checked s.
Proof.
  intros Hflag.
  assert (get_readonly s || get_disabled s = true) as Hor.
  { destruct Hflag as [-> | ->]; [apply orb_true_r|done]. }
  assert (after <$> _click s = Some s) as Hc.
  { unfold _click. by rewrite Hor. }
  assert (after <$> _keyup e s = Some s) as Hk.
  { unfold _keyup. by rewrite Hor. }
  assert (toggle s = Some s) as Ht.
  { unfold toggle, click, dispatchEvent. by destruct (click_listener s). }
  split_and!; [done..|].
  intros s' [E|[E|E]]; congruence.
Qed.

Lemma set_checked_get_checked v s s' :
  set_checked react v s = Some s' → get_checked s' = ToBoolean v.
Proof.
  intros E. destruct (set_checked_spec v s) as (s1 & E1 & Hp & _).
  rewrite E in E1. injection E1 as <-. by injection Hp.
Qed.

Lemma set_checked_frame v s s' :
  set_checked react v s = Some s' → frame A_checked s s'.
Proof.
  intros E. destruct (set_checked_spec v s) as (s1 & E1 & _ & Hf).
  rewrite E in E1. by injection E1 as <-.
Qed.

(** What [toggle()] does, in every state. *)
Lemma toggle_spec s :
  ∃ s', toggle s = Some s'
        ∧ get_checked s' =
            (if click_listener s && negb (get_readonly s || get_disabled s)
             then negb (get_checked s) else get_checked s)
        ∧ get_readonly s' = get_readonly s
        ∧ get_disabled s' = get_disabled s
        ∧ click_listener s' = click_listener s.
Proof.
  unfold toggle, click, dispatchEvent, _click.
  destruct (click_listener s) eqn:Hl; simpl; [|by exists s].
  destruct (get_readonly s || get_disabled s) eqn:Hor; simpl;
    [exists s; by rewrite Hl|].
  destruct (set_checked_spec (VBoolean (negb (get_checked s))) s)
    as (s' & E & Hp & Hf).
  exists s'. rewrite E. simpl. split_and!; [done| | | |].
  - by injection Hp.
  - by apply (frame_get_readonly A_checked).
  - by apply (frame_get_disabled A_checked).
  - rewrite <-Hl. apply Hf.
Qed.

(** C4: two calls of [toggle()] in a row bring the checked state back to
    what it was, whether the toggles take effect or are rejected. *)
Theorem toggle_twice_restores_checked s :
  ∃ s1 s2, toggle s = Some s1 ∧ toggle s1 = Some s2
           ∧ get_checked s2 = get_checked s.
Proof.
  destruct (toggle_spec s) as (s1 & E1 & Hc1 & Hr1 & Hd1 & Hl1).
  destruct (toggle_spec s1) as (s2 & E2 & Hc2 & _).
  exists s1, s2. split_and!; [done..|].
  rewrite Hc2, Hr1, Hd1, Hl1, Hc1.
  destruct (click_listener s && negb (get_readonly s || get_disabled s));
    [apply negb_involutive|done].
Qed.

(** C9: on a switch that is neither readonly nor disabled, the keyup
    listener changes the checked state exactly when [e.which] is 32 or 13,
    and then inverts it; for every other key code the element is left as
    it was and the listener returns [false]. *)
Theorem keyup_toggles_on_space_or_enter (e : KeyboardEvent) s :
  get_readonly s = false → get_disabled s = false →
  ∃ h, _keyup e s = Some h
       ∧ (get_checked (after h) ≠ get_checked s ↔ which e = 32%Z ∨ which e = 13%Z)
       ∧ (which e = 32%Z ∨ which e = 13%Z →
            get_checked (after h) = negb (get_checked s))
       ∧ (¬ (which e = 32%Z ∨ which e = 13%Z) →
            after h = s ∧ returned h = VBoolean false).
Proof.
  intros Hr Hd. unfold _keyup. rewrite Hr, Hd. simpl.
  destruct ((which e =? 32)%Z || (which e =? 13)%Z) eqn:Hk.
  - assert (which e = 32%Z ∨ which e = 13%Z) as Hkey.
    { apply orb_true_iff in Hk. by rewrite <-!Z.eqb_eq. }
    destruct (set_checked_spec (VBoolean (negb (get_checked s))) s)
      as (s' & E & Hp & _).
    rewrite E. simpl. eexists. split; [done|]. simpl.
    assert (get_checked s' = negb (get_checked s)) as Hc by (by injection Hp).
    split_and!; [|done|done].
    split; [done|]. intros _. rewrite Hc. by destruct (get_checked s).
  - assert (¬ (which e = 32%Z ∨ which e = 13%Z)) as Hkey.
    { apply orb_false_iff in Hk as [H1 H2].
      apply Z.eqb_neq in H1, H2. by intros [?|?]. }
    eexists. split; [done|]. simpl. split_and!; [|done|done].
    split; [done|]. intros ?. done.
Qed.

(** *** The colour theme *)

(** C3: assigning a string to the [color] property sets the [color]
    attribute to it when it is one of the seven theme names; any other
    string is ignored without an error and the element, with its previous
    colour, is left as it was. *)
Theorem set_color_valid_or_ignored (c : string) s :
  (c ∈ VALID_COLORS →
     ∃ s', set_color react (VString c) s = Some s' ∧ get_color s' = Some c)
  ∧ (c ∉ VALID_COLORS → set_color react (VString c) s = Some s).
Proof.
  split; intros Hc.
  - destruct (set_property_react_total A_color (VString c) s) as [s' E].
    exists s'. split; [done|].
    apply (set_property_keeps react A_color (VString c) s s');
      [apply react_keeps_attr|done| |done].
    intros _. simpl. by apply bool_decide_eq_true.
  - unfold set_color. simpl. by rewrite bool_decide_eq_false_2.
Qed.

(** *** Form submission *)

(** C5: assigning a truthy value to [disabled] puts the [disabled]
    attribute on the hidden form checkbox, whereas assigning any value to
    [readonly] leaves the presence of [disabled] on that checkbox as it
    was. *)
Theorem disabled_reaches_form_checkbox_readonly_does_not v s :
  (ToBoolean v = true →
     ∃ s', set_disabled react v s = Some s'
           ∧ hasAttribute (attributes (checkbox s')) "disabled" = true)
  ∧ (∃ s', set_readonly react v s = Some s'
           ∧ hasAttribute (attributes (checkbox s')) "disabled"
             = hasAttribute (attributes (checkbox s)) "disabled").
Proof.
  split.
  - intros Hv.
    destruct (set_property_react_total A_disabled v s) as [s' E].
    exists s'. split; [done|].
    apply (set_property_present react A_disabled v s s') in E;
      [|done|apply react_keeps_host].
    rewrite Hv in E. by injection E.
  - destruct (set_property_react_total A_readonly v s) as [s' E].
    exists s'. split; [done|].
    apply (set_property_frame react A_readonly v s s') in E;
      [|apply react_framing].
    unfold hasAttribute. by rewrite (frame_checkbox _ _ _ E).
Qed.

(** *** Size *)

Lemma set_width_spec v s :
  ∃ s', set_width react v s = Some s'
        ∧ style s' !! "width" = Some (ToString v +:+ "px")
        ∧ handle s' !! "width"
          = Some (NumberToString (ToNumber v * 0.45) +:+ "px").
Proof.
  unfold set_width.
  destruct (setAttribute_react_total "width" (ToString v) s) as [s1 ->].
  simpl. eexists. split; [done|]. simpl. split.
  - apply lookup_insert_eq.
  - rewrite lookup_insert_ne by done. apply lookup_insert_eq.
Qed.

Lemma set_height_spec v s :
  ∃ s', set_height react v s = Some s'
        ∧ style s' !! "height" = Some (ToString v +:+ "px")
        ∧ handle s' !! "height"
          = Some (NumberToString (ToNumber v - 4) +:+ "px").
Proof.
  unfold set_height.
  destruct (setAttribute_react_total "height" (ToString v) s) as [s1 ->].
  simpl. eexists. split; [done|]. simpl. split; apply lookup_insert_eq.
Qed.

(** C6, amended: for every number assigned, the width setter gives the
    handle 0.45 times the width of the switch, and the height setter gives
    the handle the height of the switch less four pixels. *)
Theorem handle_follows_switch_size (n : float) s :
  (∃ s', set_width react (VNumber n) s = Some s'
         ∧ style s' !! "width" = Some (NumberToString n +:+ "px")
         ∧ handle s' !! "width" = Some (NumberToString (n * 0.45) +:+ "px"))
  ∧ (∃ s', set_height react (VNumber n) s = Some s'
           ∧ style s' !! "height" = Some (NumberToString n +:+ "px")
           ∧ handle s' !! "height" = Some (NumberToString (n - 4) +:+ "px")).
Proof.
  split; [apply (set_width_spec (VNumber n))|apply (set_height_spec (VNumber n))].
Qed.

(** *** Life cycle *)

(** C7: once [disconnectedCallback] has run neither listener is
    registered, and whatever click and keyup events are delivered
    afterwards, the element, and so its checked state, stays as it was;
    [toggle()] has no effect either. *)
Theorem no_toggle_after_disconnect (evs : list event) s :
  click_listener (disconnectedCallback s) = false
  ∧ keyup_listener (disconnectedCallback s) = false
  ∧ dispatchEvents evs (disconnectedCallback s) = Some (disconnectedCallback s)
  ∧ toggle (disconnectedCallback s) = Some (disconnectedCallback s)
  ∧ get_checked (disconnectedCallback s) = get_checked s.
Proof.
  split_and!; try done.
  induction evs as [|[|e] evs IH]; [done|..]; simpl; by rewrite IH.
Qed.

Lemma set_property_react_frame a v s s' :
  set_property react a v s = Some s' → frame a s s'.
Proof. apply set_property_frame, react_framing. Qed.

Lemma set_property_react_present a v s s' :
  is_boolean a = true → set_property react a v s = Some s' →
  present (attr_name a) s' = (ToBoolean v, ToBoolean v, ToBoolean v).
Proof. intros Hb. by apply set_property_present, react_keeps_host. Qed.

Lemma bind_chain {A B} (P : A → Prop) (Q : B → Prop)
    (m : option A) (k : A → option B) :
  (∃ x, m = Some x ∧ P x) →
  (∀ x, P x → ∃ y, k x = Some y ∧ Q y) →
  ∃ y, m ≫= k = Some y ∧ Q y.
Proof. intros (x & -> & HP) Hk. by apply Hk. Qed.

Lemma default_attribute_total name x s :
  ∃ s', (if negb (hasAttribute (host s) name)
         then setAttribute react name x s else Some s) = Some s' ∧ True.
Proof.
  destruct (negb _); [|by exists s].
  destruct (setAttribute_react_total name x s) as [s' ->]. by exists s'.
Qed.

(** C8: [connectedCallback] always completes and leaves the switch
    checked, whether or not the markup carries the [checked] attribute: the
    value it assigns, [this.hasAttribute('checked') || true], is [true]. *)
Theorem connected_switch_is_checked s :
  (hasAttribute (host s) "checked" || true = true)
  ∧ ∃ s', connectedCallback s = Some s' ∧ get_checked s' = true.
Proof.
  split; [apply orb_true_r|]. unfold connectedCallback.
  do 6 (apply (bind_chain (λ _, True));
        [apply default_attribute_total|intros ? _]).
  apply (bind_chain (λ _, True)).
  { destruct (set_property_react_total A_height (VNumber 24) x4) as [s' E].
    by exists s'. }
  intros s7 _. apply (bind_chain (λ _, True)).
  { destruct (set_property_react_total A_width (VNumber 48) s7) as [s' E].
    by exists s'. }
  intros s8 _. apply (bind_chain (λ s, get_checked s = true)).
  { destruct (set_checked_spec (VBoolean (hasAttribute (host s8) "checked" || true)) s8)
      as (s' & E & Hp & _).
    exists s'. split; [done|]. unfold get_checked.
    injection Hp as -> _ _. apply orb_true_r. }
  intros s9 Hc. apply (bind_chain (λ s, get_checked s = true)).
  { destruct (set_property_react_total A_disabled
                (VBoolean (hasAttribute (host s9) "disabled" || false)) s9)
      as [s' E].
    exists s'. split; [done|]. rewrite <-Hc.
    apply (frame_get_checked A_disabled); [done|].
    by apply set_property_react_frame in E. }
  intros s10 Hc'. apply (bind_chain (λ s, get_checked s = true)).
  { destruct (set_property_react_total A_readonly
                (VBoolean (hasAttribute (host s10) "readonly" || false)) s10)
      as [s' E].
    exists s'. split; [done|]. rewrite <-Hc'.
    apply (frame_get_checked A_readonly); [done|].
    by apply set_property_react_frame in E. }
  intros s11 Hc''. by eexists.
Qed.

(** *** The three elements agree *)

Lemma mirrors_frame name a s s' :
  name ≠ attr_name a → frame a s s' → mirrors name s → mirrors name s'.
Proof.
  intros Hn Hf. unfold mirrors, hasAttribute.
  by rewrite (frame_host _ _ _ Hf), (frame_shadowCheck _ _ _ Hf),
    (frame_checkbox _ _ _ Hf).
Qed.

Lemma mirrors_present name s b : present name s = (b, b, b) → mirrors name s.
Proof. intros [= E1 E2 E3]. unfold mirrors. by rewrite E1, E2, E3. Qed.

Lemma step_in_sync a s s' :
  frame a s s' →
  (is_boolean a = true → ∃ b, present (attr_name a) s' = (b, b, b)) →
  in_sync s → in_sync s'.
Proof.
  intros Hf Hp (Hc & Hd & Hr).
  destruct a; simpl in Hp;
    try (destruct (Hp eq_refl) as [b Hp']; apply mirrors_present in Hp');
    split_and!;
    first [done | eapply mirrors_frame; [|exact Hf|]; [done|done]].
Qed.

Lemma react_present a old new s s' :
  is_boolean a = true → react a old new s = Some s' →
  present (attr_name a) s'
  = (bool_decide (new ≠ None), bool_decide (new ≠ None), bool_decide (new ≠ None)).
Proof.
  intros Hb. rewrite react_unfold, body_boolean by done.
  destruct (set_property react a _ s) as [s1|] eqn:E; [|done]. simpl.
  apply set_property_react_present in E; [|done].
  by case_bool_decide; intros [= <-].
Qed.

Lemma observed_Some name a : observed name = Some a → name = attr_name a.
Proof.
  unfold observed. intros E. apply find_some in E as [_ E].
  symmetry. by apply String.eqb_eq.
Qed.

Lemma observed_None name a : observed name = None → name ≠ attr_name a.
Proof. intros E ->. by rewrite observed_attr_name in E. Qed.

Lemma unobserved_in_sync name (m : gmap string string) s :
  observed name = None →
  (∀ n, n ≠ name → m !! n = host s !! n) →
  in_sync s → in_sync (with_host m s).
Proof.
  intros Ho Hm (Hc & Hd & Hr). unfold in_sync, mirrors, hasAttribute in *.
  simpl.
  rewrite !Hm; [done|by apply not_eq_sym, (observed_None _ A_readonly)
               |by apply not_eq_sym, (observed_None _ A_disabled)
               |by apply not_eq_sym, (observed_None _ A_checked)].
Qed.

Lemma Assign_in_sync a v s :
  in_sync s → ∃ s', set_property react a v s = Some s' ∧ in_sync s'.
Proof.
  intros Hs. destruct (set_property_react_total a v s) as [s' E].
  exists s'. split; [done|].
  apply (step_in_sync a s); [by apply set_property_react_frame in E| |done].
  intros Hb. eexists. by apply (set_property_react_present a v s s').
Qed.

Lemma AttributeChanged_in_sync a old new s :
  in_sync s → ∃ s', react a old new s = Some s' ∧ in_sync s'.
Proof.
  intros Hs. destruct (react_total a old new s) as [s' E].
  exists s'. split; [done|].
  apply (step_in_sync a s); [by apply react_framing in E| |done].
  intros Hb. eexists. by apply (react_present a old new s).
Qed.

Lemma SetAttribute_in_sync name x s :
  in_sync s → ∃ s', setAttribute react name x s = Some s' ∧ in_sync s'.
Proof.
  intros Hs. destruct (setAttribute_react_total name x s) as [s' E].
  exists s'. split; [done|]. destruct (observed name) as [a|] eqn:Ho.
  - apply observed_Some in Ho as ->.
    apply (step_in_sync a s);
      [by apply (setAttribute_frame react a) in E; [|apply react_framing]| |done].
    intros Hb. unfold setAttribute in E. rewrite observed_attr_name in E.
    eexists. by apply (react_present a _ _ _ _ Hb E).
  - unfold setAttribute in E. rewrite Ho in E. injection E as <-.
    apply (unobserved_in_sync name); [done| |done].
    intros n Hn. by rewrite lookup_insert_ne.
Qed.

Lemma RemoveAttribute_in_sync name s :
  in_sync s → ∃ s', removeAttribute react name s = Some s' ∧ in_sync s'.
Proof.
  intros Hs. destruct (removeAttribute_react_total name s) as [s' E].
  exists s'. split; [done|]. destruct (observed name) as [a|] eqn:Ho.
  - apply observed_Some in Ho as ->.
    apply (step_in_sync a s);
      [by apply (removeAttribute_frame react a) in E; [|apply react_framing]| |done].
    intros Hb. unfold removeAttribute in E. rewrite observed_attr_name in E.
    destruct (host s !! attr_name a) eqn:El.
    + eexists. by apply (react_present a _ _ _ _ Hb E).
    + injection E as <-. destruct Hs as (Hc & Hd & Hr).
      apply hasAttribute_false in El.
      exists false. unfold present.
      destruct a; try discriminate; simpl in *.
      * destruct Hd as [-> ->]. by rewrite El.
      * destruct Hr as [-> ->]. by rewrite El.
      * destruct Hc as [-> ->]. by rewrite El.
  - unfold removeAttribute in E. rewrite Ho in E.
    destruct (host s !! name); injection E as <-; [|done].
    apply (unobserved_in_sync name); [done| |done].
    intros n Hn. by rewrite lookup_delete_ne.
Qed.

Lemma Toggle_in_sync s : in_sync s → ∃ s', toggle s = Some s' ∧ in_sync s'.
Proof.
  intros Hs. unfold toggle, click, dispatchEvent, _click.
  destruct (click_listener s); [|by exists s].
  destruct (get_readonly s || get_disabled s); simpl; [by exists s|].
  destruct (Assign_in_sync A_checked (VBoolean (negb (get_checked s))) s Hs)
    as (s' & E & Hs').
  simpl in E. rewrite E. by exists s'.
Qed.

Lemma Connected_in_sync s :
  in_sync s → ∃ s', connectedCallback s = Some s' ∧ in_sync s'.
Proof.
  intros Hs. unfold connectedCallback.
  do 6 (eapply (bind_chain in_sync);
        [destruct (negb _); [by apply SetAttribute_in_sync|by eexists]|
         clear s Hs; intros s Hs]).
  eapply (bind_chain in_sync); [by apply (Assign_in_sync A_height)|].
  clear s Hs; intros s Hs.
  eapply (bind_chain in_sync); [by apply (Assign_in_sync A_width)|].
  clear s Hs; intros s Hs.
  eapply (bind_chain in_sync); [by apply (Assign_in_sync A_checked)|].
  clear s Hs; intros s Hs.
  eapply (bind_chain in_sync); [by apply (Assign_in_sync A_disabled)|].
  clear s Hs; intros s Hs.
  eapply (bind_chain in_sync); [by apply (Assign_in_sync A_readonly)|].
  clear s Hs; intros s Hs.
  by eexists.
Qed.

(** C2: every operation on a switch whose host and two checkboxes agree on
    [checked], [disabled] and [readonly] completes and leaves them in
    agreement: the property setters, the attribute-changed callback, the
    click and keyup listeners, and also attribute writes from outside,
    [toggle()], connection and disconnection. *)
Theorem in_sync_preserved (op : operation) s :
  in_sync s → ∃ s', run op s = Some s' ∧ in_sync s'.
Proof.
  intros Hs. destruct op as [a v|a old new|name x|name| |e| | |]; simpl.
  - by apply Assign_in_sync.
  - by apply AttributeChanged_in_sync.
  - by apply SetAttribute_in_sync.
  - by apply RemoveAttribute_in_sync.
  - unfold _click.
    destruct (get_readonly s || get_disabled s); simpl; [by exists s|].
    destruct (Assign_in_sync A_checked (VBoolean (negb (get_checked s))) s Hs)
      as (s' & E & Hs').
    simpl in E. rewrite E. by exists s'.
  - unfold _keyup.
    destruct (get_readonly s || get_disabled s); simpl; [by exists s|].
    destruct (_ || _); simpl; [|by exists s].
    destruct (Assign_in_sync A_checked (VBoolean (negb (get_checked s))) s Hs)
      as (s' & E & Hs').
    simpl in E. rewrite E. by exists s'.
  - by apply Toggle_in_sync.
  - by apply Connected_in_sync.
  - by exists (disconnectedCallback s).
Qed.

(** *** Termination and idempotence of the flag setters *)

Lemma flag_setter_settles a v s :
  is_boolean a = true →
  ∃ s1, (∀ fuel, set_property (attributeChangedCallback (3 + fuel)) a v s = Some s1)
        ∧ present (attr_name a) s1 = (ToBoolean v, ToBoolean v, ToBoolean v)
        ∧ ∀ r, set_property r a v s1 = Some s1.
Proof.
  intros Hb. destruct (set_property_react_total a v s) as [s1 E].
  assert (present (attr_name a) s1 = (ToBoolean v, ToBoolean v, ToBoolean v))
    as Hp by (by apply (set_property_react_present a v s s1)).
  exists s1. split_and!; [|done|].
  - intros fuel. rewrite <-E. apply set_property_ext.
    intros ?????. apply attributeChangedCallback_enough.
  - intros r. by apply set_property_current.
Qed.

(** C10: nested attribute-changed reactions never go deeper than three
    levels, so every reaction completes, with the same result whatever
    deeper bound is allowed.  A flag setter writes the host's attribute, and
    so triggers a reaction, only when its presence differs from the state
    assigned: otherwise its result does not depend on the reaction.  Each of
    the [checked], [disabled] and [readonly] setters completes and leaves the
    flag in the state assigned on the host and on both checkboxes; assigning
    the same value again then writes no attribute, runs no reaction and
    changes nothing. *)
Theorem flag_setters_terminate_and_are_idempotent v s :
  (∀ fuel a old new s0,
     attributeChangedCallback (3 + fuel) a old new s0 = react a old new s0
     ∧ is_Some (react a old new s0))
  ∧ (∀ a r r', is_boolean a = true →
       hasAttribute (host s) (attr_name a) = ToBoolean v →
       set_property r a v s = set_property r' a v s)
  ∧ (∃ s1, (∀ fuel, set_checked (attributeChangedCallback (3 + fuel)) v s = Some s1)
           ∧ present "checked" s1 = (ToBoolean v, ToBoolean v, ToBoolean v)
           ∧ ∀ r, set_checked r v s1 = Some s1)
  ∧ (∃ s1, (∀ fuel, set_disabled (attributeChangedCallback (3 + fuel)) v s = Some s1)
           ∧ present "disabled" s1 = (ToBoolean v, ToBoolean v, ToBoolean v)
           ∧ ∀ r, set_disabled r v s1 = Some s1)
  ∧ (∃ s1, (∀ fuel, set_readonly (attributeChangedCallback (3 + fuel)) v s = Some s1)
           ∧ present "readonly" s1 = (ToBoolean v, ToBoolean v, ToBoolean v)
           ∧ ∀ r, set_readonly r v s1 = Some s1).
Proof.
  split_and!.
  - intros fuel a old new s0. split.
    + apply attributeChangedCallback_enough.
    + apply react_total.
  - intros a r r' Hb Hh. by apply set_property_flag_current.
  - by apply (flag_setter_settles A_checked).
  - by apply (flag_setter_settles A_disabled).
  - by apply (flag_setter_settles A_readonly).
Qed.

End Properties.

(** ** Further properties *)

Section Further.
Context `{Platform}.
Implicit Types (r : reaction) (a : Attr) (s : SwitchElement) (v : value).

Lemma attr_name_inj a b : attr_name a = attr_name b → a = b.
Proof. by destruct a, b. Qed.

(** *** The label *)

Lemma label_frame_refl a s : label_frame a s s.
Proof. by intros n Hn. Qed.

Lemma label_frame_trans a s1 s2 s3 :
  label_frame a s1 s2 → label_frame a s2 s3 → label_frame a s1 s3.
Proof. intros H1 H2 n Hn. by rewrite H2, H1. Qed.

Lemma setAttribute_label_frame r a x s s' :
  label_framing r → setAttribute r (attr_name a) x s = Some s' →
  label_frame a s s'.
Proof.
  unfold setAttribute. rewrite observed_attr_name. intros Hr E.
  by apply Hr in E.
Qed.

Lemma removeAttribute_label_frame r a s s' :
  label_framing r → removeAttribute r (attr_name a) s = Some s' →
  label_frame a s s'.
Proof.
  unfold removeAttribute. rewrite observed_attr_name. intros Hr E.
  destruct (host s !! attr_name a); [by apply Hr in E|].
  injection E as <-. apply label_frame_refl.
Qed.

Lemma set_property_label_frame r a v s s' :
  label_framing r → set_property r a v s = Some s' → label_frame a s s'.
Proof.
  intros Hr E.
  destruct a; simpl in E;
    unfold set_checked, set_disabled, set_readonly, set_value, set_width,
      set_height, set_name, set_color, set_on_text, set_off_text in E;
    repeat case_match; simplify_option_eq;
    repeat match goal with
      | E : setAttribute _ _ _ _ = Some _ |- label_frame ?a _ _ =>
          apply (setAttribute_label_frame _ a) in E; [|done]
      | E : removeAttribute _ _ _ = Some _ |- label_frame ?a _ _ =>
          apply (removeAttribute_label_frame _ a) in E; [|done]
      end;
    repeat case_match; try done; try apply label_frame_refl.
  all: intros n Hn; rewrite (E n Hn); simpl; by rewrite lookup_insert_ne.
Qed.

Lemma body_label_framing r :
  label_framing r → label_framing (attributeChangedCallback_body r).
Proof.
  intros Hr a old new s s' E. destruct (is_boolean a) eqn:Hb.
  - rewrite body_boolean in E by done.
    destruct (set_property r a _ s) as [s1|] eqn:E1; [|done]. simpl in E.
    apply set_property_label_frame in E1; [|done].
    by case_bool_decide; injection E as <-.
  - rewrite body_string in E by done. case_bool_decide.
    + by eapply set_property_label_frame.
    + injection E as <-. apply label_frame_refl.
Qed.

Lemma attributeChangedCallback_label_framing fuel :
  label_framing (attributeChangedCallback fuel).
Proof.
  induction fuel as [|fuel IH]; [by intros ?????|]. by apply body_label_framing.
Qed.

Lemma react_label_framing : label_framing react.
Proof. apply attributeChangedCallback_label_framing. Qed.

(** *** The copies of the string-valued attributes *)

Lemma set_property_mirror r a v s s' :
  keeps_mirror r → is_Some (mirror_of a s) →
  set_property r a v s = Some s' →
  mirror_of a s' = Some (Some (ToString v)).
Proof.
  intros Hr [m Hm] E.
  destruct a; try discriminate; simpl in E;
    unfold set_value, set_name, set_on_text, set_off_text in E.
  - destruct (setAttribute r _ _ s) as [s1|]; [|done]. injection E as <-.
    simpl. by rewrite lookup_insert_eq.
  - unfold setAttribute in E. simpl in E.
    apply (Hr A_name) in E; [done|apply lookup_insert_eq|].
    simpl. by rewrite lookup_insert_eq.
  - unfold setAttribute in E. simpl in E.
    apply (Hr A_on_text) in E; [done|apply lookup_insert_eq|].
    simpl. by rewrite lookup_insert_eq.
  - unfold setAttribute in E. simpl in E.
    apply (Hr A_off_text) in E; [done|apply lookup_insert_eq|].
    simpl. by rewrite lookup_insert_eq.
Qed.

Lemma body_keeps_mirror r :
  keeps_mirror r → keeps_mirror (attributeChangedCallback_body r).
Proof.
  intros Hr a old x s s' Hc Hm E.
  assert (is_boolean a = false) as Hb by (by destruct a).
  rewrite body_string in E by done. case_bool_decide.
  - by apply (set_property_mirror r a (VString x) s s') in E.
  - by injection E as <-.
Qed.

Lemma attributeChangedCallback_keeps_mirror fuel :
  keeps_mirror (attributeChangedCallback fuel).
Proof.
  induction fuel as [|fuel IH]; [by intros ???????|]. by apply body_keeps_mirror.
Qed.

Lemma react_keeps_mirror : keeps_mirror react.
Proof. apply attributeChangedCallback_keeps_mirror. Qed.

Lemma mirror_of_string a s : is_Some (mirror_of a s) → is_boolean a = false ∧ a ≠ A_color.
Proof. intros [m Hm]. by destruct a. Qed.

(** After a property with a copy outside the host is assigned, the host's
    attribute and the copy both hold the string assigned. *)
Lemma set_property_react_mirror a v s s' :
  is_Some (mirror_of a s) → set_property react a v s = Some s' →
  host s' !! attr_name a = Some (ToString v)
  ∧ mirror_of a s' = Some (Some (ToString v)).
Proof.
  intros Hm E. destruct (mirror_of_string a s Hm) as [Hb Hc]. split.
  - by apply (set_property_keeps react a v s s'); [apply react_keeps_attr|..].
  - by apply (set_property_mirror react a v s s'); [apply react_keeps_mirror|..].
Qed.

(** X1: reading a property right after assigning it gives back the value
    assigned, as a boolean for the three flags and as a string otherwise;
    for [color] this needs the value to be a theme name. *)
Theorem get_after_set a v s :
  (a = A_color → VALID_COLORS_includes v = true) →
  ∃ s', set_property react a v s = Some s'
        ∧ get_property a s' =
            if is_boolean a then VBoolean (ToBoolean v) else VString (ToString v).
Proof.
  intros Hc. destruct (set_property_react_total a v s) as [s' E].
  exists s'. split; [done|].
  destruct (is_boolean a) eqn:Hb.
  - apply set_property_react_present in E; [|done]. injection E as E _ _.
    destruct a; try discriminate; simpl in *;
      unfold get_disabled, get_readonly, get_checked; by rewrite E.
  - destruct (mirror_of a s) as [m|] eqn:Hm.
    + destruct (set_property_react_mirror a v s s') as [Eh Em]; [by eexists|done|].
      destruct a; try discriminate; simpl in *;
        unfold get_value, get_name, get_on_text, get_off_text;
        first [by rewrite Eh | by injection Em as ->].
    + assert (host s' !! attr_name a = Some (ToString v)) as Eh
        by (by apply (set_property_keeps react a v s s'); [apply react_keeps_attr|..]).
      destruct a; try discriminate; simpl in *;
        unfold get_width, get_height, get_color; by rewrite Eh.
Qed.

Lemma text_in_sync_agreed s : text_in_sync s ↔ ∀ a, agreed a s.
Proof.
  split.
  - intros (Hn & Hv & Hon & Hoff) a x Hm.
    destruct a; try discriminate; simpl in *; by injection Hm as <-.
  - intros Ha. split_and!.
    + by apply (Ha A_name).
    + by apply (Ha A_value).
    + by apply (Ha A_on_text).
    + by apply (Ha A_off_text).
Qed.

Lemma agreed_frame a b s s' :
  b ≠ a → frame a s s' → label_frame a s s' → agreed b s → agreed b s'.
Proof.
  intros Hab Hf Hl Hb x Hm.
  assert (attr_name b ≠ attr_name a) as Hn by (by intros ?%attr_name_inj).
  rewrite (frame_host _ _ _ Hf) by done. apply Hb. rewrite <-Hm.
  destruct b; try done; simpl in *.
  - by rewrite (frame_checkbox _ _ _ Hf).
  - by rewrite (frame_checkbox _ _ _ Hf).
  - by rewrite (Hl "on-text").
  - by rewrite (Hl "off-text").
Qed.

Lemma agreed_no_mirror a s : mirror_of a s = None → agreed a s.
Proof. intros Hm x Hx. congruence. Qed.

Lemma set_property_agreed a v s s' :
  (∀ b, b ≠ a → agreed b s) → set_property react a v s = Some s' →
  ∀ b, agreed b s'.
Proof.
  intros Hs E b. destruct (decide (b = a)) as [->|Hab].
  - destruct (mirror_of a s) as [m|] eqn:Hm.
    + destruct (set_property_react_mirror a v s s') as [Eh Em]; [by eexists|done|].
      intros x Hx. rewrite Eh. congruence.
    + apply agreed_no_mirror. by destruct a.
  - apply (agreed_frame a b s); [done| | |by apply Hs].
    + by apply set_property_react_frame in E.
    + by apply set_property_label_frame in E; [|apply react_label_framing].
Qed.

Lemma react_agreed a old new s s' :
  (∀ b, b ≠ a → agreed b s) → (old = new → agreed a s) →
  react a old new s = Some s' → ∀ b, agreed b s'.
Proof.
  intros Hs Ha E b. destruct (decide (b = a)) as [->|Hab].
  - rewrite react_unfold in E. destruct (is_boolean a) eqn:Hb.
    { apply agreed_no_mirror. by destruct a. }
    rewrite body_string in E by done. case_bool_decide as Hon.
    + by apply (set_property_agreed a (of_nullable new) s s').
    + injection E as <-. apply Ha. by destruct (decide (old = new)).
  - apply (agreed_frame a b s); [done| | |by apply Hs].
    + by apply react_framing in E.
    + by apply react_label_framing in E.
Qed.

Lemma agreed_with_host a (m : gmap string string) s :
  m !! attr_name a = host s !! attr_name a →
  agreed a s → agreed a (with_host m s).
Proof.
  intros Hm Ha x Hx. simpl. rewrite Hm. apply Ha. by destruct a.
Qed.

Lemma Assign_text_in_sync a v s :
  text_in_sync s → ∃ s', set_property react a v s = Some s' ∧ text_in_sync s'.
Proof.
  intros Hs0. assert (∀ b, agreed b s) as Hs by (by apply text_in_sync_agreed).
  destruct (set_property_react_total a v s) as [s' E].
  exists s'. split; [done|]. apply text_in_sync_agreed.
  by apply (set_property_agreed a v s).
Qed.

Lemma AttributeChanged_text_in_sync a old new s :
  text_in_sync s → ∃ s', react a old new s = Some s' ∧ text_in_sync s'.
Proof.
  intros Hs0. assert (∀ b, agreed b s) as Hs by (by apply text_in_sync_agreed).
  destruct (react_total a old new s) as [s' E].
  exists s'. split; [done|]. apply text_in_sync_agreed.
  by apply (react_agreed a old new s).
Qed.

Lemma SetAttribute_text_in_sync name x s :
  text_in_sync s → ∃ s', setAttribute react name x s = Some s' ∧ text_in_sync s'.
Proof.
  intros Hs0. assert (∀ b, agreed b s) as Hs by (by apply text_in_sync_agreed).
  destruct (setAttribute_react_total name x s) as [s' E].
  exists s'. split; [done|]. apply text_in_sync_agreed.
  unfold setAttribute in E. destruct (observed name) as [a|] eqn:Ho.
  - apply observed_Some in Ho as ->.
    refine (react_agreed a _ _ _ s' _ _ E).
    + intros b Hb. apply agreed_with_host; [|done].
      rewrite lookup_insert_ne; [done|by intros ?%attr_name_inj].
    + intros Hx c Hc. simpl. rewrite lookup_insert_eq, <-Hx.
      apply Hs. by destruct a.
  - injection E as <-. intros b. apply agreed_with_host; [|done].
    rewrite lookup_insert_ne; [done|]. by apply observed_None.
Qed.

Lemma RemoveAttribute_text_in_sync name s :
  text_in_sync s → ∃ s', removeAttribute react name s = Some s' ∧ text_in_sync s'.
Proof.
  intros Hs0. assert (∀ b, agreed b s) as Hs by (by apply text_in_sync_agreed).
  destruct (removeAttribute_react_total name s) as [s' E].
  exists s'. split; [done|]. apply text_in_sync_agreed.
  unfold removeAttribute in E.
  destruct (host s !! name) as [old|] eqn:El; [|by injection E as <-].
  destruct (observed name) as [a|] eqn:Ho.
  - apply observed_Some in Ho as ->.
    refine (react_agreed a (Some old) None _ s' _ _ E); [|done].
    intros b Hb. apply agreed_with_host; [|done].
    rewrite lookup_delete_ne; [done|by intros ?%attr_name_inj].
  - injection E as <-. intros b. apply agreed_with_host; [|done].
    rewrite lookup_delete_ne; [done|]. by apply observed_None.
Qed.

Lemma Connected_text_in_sync s :
  text_in_sync s → ∃ s', connectedCallback s = Some s' ∧ text_in_sync s'.
Proof.
  intros Hs. unfold connectedCallback.
  do 6 (eapply (bind_chain text_in_sync);
        [destruct (negb _); [by apply SetAttribute_text_in_sync|by eexists]|
         clear s Hs; intros s Hs]).
  eapply (bind_chain text_in_sync); [by apply (Assign_text_in_sync A_height)|].
  clear s Hs; intros s Hs.
  eapply (bind_chain text_in_sync); [by apply (Assign_text_in_sync A_width)|].
  clear s Hs; intros s Hs.
  eapply (bind_chain text_in_sync); [by apply (Assign_text_in_sync A_checked)|].
  clear s Hs; intros s Hs.
  eapply (bind_chain text_in_sync); [by apply (Assign_text_in_sync A_disabled)|].
  clear s Hs; intros s Hs.
  eapply (bind_chain text_in_sync); [by apply (Assign_text_in_sync A_readonly)|].
  clear s Hs; intros s Hs.
  by eexists.
Qed.

(** X2: every operation on a switch whose form checkbox carries the host's
    [name] and [value] and whose label carries the host's [on-text] and
    [off-text] completes and leaves them so. *)
Theorem text_in_sync_preserved (op : operation) s :
  text_in_sync s → ∃ s', run op s = Some s' ∧ text_in_sync s'.
Proof.
  intros Hs. destruct op as [a v|a old new|name x|name| |e| | |]; simpl.
  - by apply Assign_text_in_sync.
  - by apply AttributeChanged_text_in_sync.
  - by apply SetAttribute_text_in_sync.
  - by apply RemoveAttribute_text_in_sync.
  - unfold _click.
    destruct (get_readonly s || get_disabled s); simpl; [by exists s|].
    destruct (Assign_text_in_sync A_checked (VBoolean (negb (get_checked s))) s Hs)
      as (s' & E & Hs').
    simpl in E. rewrite E. by exists s'.
  - unfold _keyup.
    destruct (get_readonly s || get_disabled s); simpl; [by exists s|].
    destruct (_ || _); simpl; [|by exists s].
    destruct (Assign_text_in_sync A_checked (VBoolean (negb (get_checked s))) s Hs)
      as (s' & E & Hs').
    simpl in E. rewrite E. by exists s'.
  - unfold toggle, click, dispatchEvent, _click.
    destruct (click_listener s); [|by exists s].
    destruct (get_readonly s || get_disabled s); simpl; [by exists s|].
    destruct (Assign_text_in_sync A_checked (VBoolean (negb (get_checked s))) s Hs)
      as (s' & E & Hs').
    simpl in E. rewrite E. by exists s'.
  - by apply Connected_text_in_sync.
  - by exists (disconnectedCallback s).
Qed.

(** *** Attribute writes from outside *)

Lemma with_host_id s : with_host (host s) s = s.
Proof. by destruct s. Qed.

Lemma react_same_value a x s :
  is_boolean a = false → react a (Some x) (Some x) s = Some s.
Proof.
  intros Hb. rewrite react_unfold, body_string by done.
  by rewrite bool_decide_eq_false_2 by (by intros ?).
Qed.

(** X3: an attribute written on the host holds the value written when
    [setAttribute] returns, whatever the reaction did: the callback never
    alters or removes the attribute it reacts to, not even an invalid
    [color].  Writing a string-valued observed attribute the value it
    already has changes nothing at all. *)
Theorem setAttribute_sticks (name x : string) s :
  ∃ s', setAttribute react name x s = Some s'
        ∧ host s' !! name = Some x
        ∧ (∀ a, observed name = Some a → is_boolean a = false →
             host s !! name = Some x → s' = s).
Proof.
  destruct (setAttribute_react_total name x s) as [s' E].
  exists s'. split; [done|]. destruct (observed name) as [a|] eqn:Ho.
  - apply observed_Some in Ho as ->. split.
    + by apply (setAttribute_keeps react a x s s'); [apply react_keeps_attr|].
    + intros b [= <-] Hs El.
      unfold setAttribute in E. rewrite observed_attr_name, El in E.
      rewrite insert_id, with_host_id, react_same_value in E by done.
      by injection E.
  - unfold setAttribute in E. rewrite Ho in E. injection E as <-.
    split; [apply lookup_insert_eq|done].
Qed.

(** X4: [removeAttribute] on the host removes a flag, [color] and every
    unobserved attribute, but a [value], [width], [height], [name],
    [on-text] or [off-text] attribute that was present is back, with the
    value "null", when the call returns: the callback assigns [null] to the
    property, whose setter writes the attribute again. *)
Theorem removeAttribute_result (name : string) s :
  ∃ s', removeAttribute react name s = Some s'
        ∧ host s' !! name =
            if comes_back name && hasAttribute (host s) name
            then Some "null" else None.
Proof.
  destruct (removeAttribute_react_total name s) as [s' E].
  exists s'. split; [done|]. unfold removeAttribute in E.
  destruct (host s !! name) as [old|] eqn:El.
  2:{ injection E as <-. rewrite El.
      apply hasAttribute_false in El. rewrite El. by rewrite andb_false_r. }
  assert (hasAttribute (host s) name = true) as ->
    by (apply hasAttribute_true; by eexists).
  rewrite andb_true_r. unfold comes_back.
  destruct (observed name) as [a|] eqn:Ho.
  2:{ injection E as <-. apply lookup_delete_eq. }
  apply observed_Some in Ho as ->. destruct (is_boolean a) eqn:Hb; simpl.
  - apply react_present in E; [|done].
    rewrite bool_decide_eq_false_2 in E by (by intros ?).
    injection E as E _ _. by apply hasAttribute_false.
  - rewrite react_unfold, body_string in E by done.
    rewrite bool_decide_eq_true_2 in E by done. simpl in E.
    case_bool_decide as Hc; simpl.
    + subst a. simpl in E. unfold set_color in E. simpl in E.
      injection E as <-. apply lookup_delete_eq.
    + by apply (set_property_keeps react a VNull _ s') in E;
        [|apply react_keeps_attr|..].
Qed.

Lemma react_class a old new s s' :
  is_boolean a = true → react a old new s = Some s' →
  (attr_name a ∈ classList s' ↔ new ≠ None).
Proof.
  intros Hb. rewrite react_unfold, body_boolean by done.
  destruct (set_property react a _ s) as [s1|]; [|done]. simpl.
  case_bool_decide as Hn; intros [= <-]; simpl.
  - split; [done|]. intros _. by apply elem_of_union_l, elem_of_singleton.
  - split; [|done]. intros [_ Hx]%elem_of_difference.
    destruct Hx. by apply elem_of_singleton.
Qed.

(** X5: writing [checked], [disabled] or [readonly] on the host, in
    whatever state the element is, leaves the attribute on the host and on
    both checkboxes and the class of the same name on the host; removing
    such an attribute that is present removes it from all three and removes
    the class. *)
Theorem flag_attribute_write_syncs a (x : string) s :
  is_boolean a = true →
  (∃ s', setAttribute react (attr_name a) x s = Some s'
         ∧ present (attr_name a) s' = (true, true, true)
         ∧ attr_name a ∈ classList s')
  ∧ (hasAttribute (host s) (attr_name a) = true →
     ∃ s', removeAttribute react (attr_name a) s = Some s'
           ∧ present (attr_name a) s' = (false, false, false)
           ∧ attr_name a ∉ classList s').
Proof.
  intros Hb. split.
  - destruct (setAttribute_react_total (attr_name a) x s) as [s' E].
    exists s'. split; [done|]. unfold setAttribute in E.
    rewrite observed_attr_name in E. split.
    + by apply react_present in E.
    + by apply (react_class a _ _ _ _ Hb E).
  - intros [old El]%hasAttribute_true.
    destruct (removeAttribute_react_total (attr_name a) s) as [s' E].
    exists s'. split; [done|]. unfold removeAttribute in E.
    rewrite El, observed_attr_name in E. split.
    + apply react_present in E; [|done].
      by rewrite bool_decide_eq_false_2 in E by (by intros ?).
    + intros Hin. by apply (react_class a _ _ _ _ Hb E) in Hin.
Qed.

(** *** Connection *)


Lemma setAttribute_react_other name x s s' n :
  n ≠ name → setAttribute react name x s = Some s' →
  host s' !! n = host s !! n.
Proof.
  intros Hn E. destruct (observed name) as [a|] eqn:Ho.
  - apply observed_Some in Ho as ->.
    apply (setAttribute_frame react a) in E; [|apply react_framing].
    by apply E.
  - unfold setAttribute in E. rewrite Ho in E. injection E as <-.
    simpl. by rewrite lookup_insert_ne.
Qed.

Lemma default_attribute_other name x s s' :
  default_attribute name x s = Some s' →
  ∀ n, n ≠ name → host s' !! n = host s !! n.
Proof.
  unfold default_attribute. intros E n Hn.
  destruct (negb _); [by apply (setAttribute_react_other name x)|].
  by injection E as <-.
Qed.


Lemma set_property_react_other a v s s' :
  set_property react a v s = Some s' →
  ∀ n, n ≠ attr_name a → host s' !! n = host s !! n.
Proof. intros E n Hn. apply set_property_react_frame in E. by apply E. Qed.

(** The steps of [connectedCallback], one by one. *)
Lemma connectedCallback_steps s s' :
  connectedCallback s = Some s' →
  ∃ s1 s2 s3 s4 s5 s6 s7 s8 s9 s10 s11,
    default_attribute "role" "checkbox" s = Some s1
    ∧ default_attribute "tabindex" (NumberToString 0) s1 = Some s2
    ∧ default_attribute "color" "info" s2 = Some s3
    ∧ default_attribute "on-text" "ON" s3 = Some s4
    ∧ default_attribute "off-text" "OFF" s4 = Some s5
    ∧ default_attribute "value" (NumberToString 1) s5 = Some s6
    ∧ set_property react A_height (VNumber 24) s6 = Some s7
    ∧ set_property react A_width (VNumber 48) s7 = Some s8
    ∧ set_property react A_checked (VBoolean true) s8 = Some s9
    ∧ set_property react A_disabled (VBoolean (get_disabled s9)) s9 = Some s10
    ∧ set_property react A_readonly (VBoolean (get_readonly s10)) s10 = Some s11
    ∧ s' = with_listeners true true s11.
Proof.
  unfold connectedCallback. intros E.
  apply bind_Some in E as (s1 & E1 & E). apply bind_Some in E as (s2 & E2 & E).
  apply bind_Some in E as (s3 & E3 & E). apply bind_Some in E as (s4 & E4 & E).
  apply bind_Some in E as (s5 & E5 & E). apply bind_Some in E as (s6 & E6 & E).
  apply bind_Some in E as (s7 & E7 & E). apply bind_Some in E as (s8 & E8 & E).
  apply bind_Some in E as (s9 & E9 & E). apply bind_Some in E as (s10 & E10 & E).
  apply bind_Some in E as (s11 & E11 & E).
  rewrite orb_true_r in E9. rewrite orb_false_r in E10, E11.
  injection E as <-.
  by exists s1, s2, s3, s4, s5, s6, s7, s8, s9, s10, s11.
Qed.

Lemma connectedCallback_total s : is_Some (connectedCallback s).
Proof.
  cut (∃ s', connectedCallback s = Some s' ∧ True); [by intros (s' & -> & _)|].
  unfold connectedCallback.
  do 6 (apply (bind_chain (λ _, True));
        [apply default_attribute_total|intros ? _]).
  apply (bind_chain (λ _, True)).
  { destruct (set_property_react_total A_height (VNumber 24) x4) as [s' E].
    by exists s'. }
  intros s7 _. apply (bind_chain (λ _, True)).
  { destruct (set_property_react_total A_width (VNumber 48) s7) as [s' E].
    by exists s'. }
  intros s8 _. apply (bind_chain (λ _, True)).
  { destruct (set_property_react_total A_checked
                (VBoolean (hasAttribute (host s8) "checked" || true)) s8) as [s' E].
    by exists s'. }
  intros s9 _. apply (bind_chain (λ _, True)).
  { destruct (set_property_react_total A_disabled
                (VBoolean (hasAttribute (host s9) "disabled" || false)) s9) as [s' E].
    by exists s'. }
  intros s10 _. apply (bind_chain (λ _, True)).
  { destruct (set_property_react_total A_readonly
                (VBoolean (hasAttribute (host s10) "readonly" || false)) s10) as [s' E].
    by exists s'. }
  intros s11 _. by eexists.
Qed.

Local Ltac host_back n E :=
  first [ rewrite (set_property_react_other _ _ _ _ E n) by done
        | rewrite (default_attribute_other _ _ _ _ E n) by done ].

Lemma hasAttribute_ext (m m' : gmap string string) n :
  m' !! n = m !! n → hasAttribute m' n = hasAttribute m n.
Proof. unfold hasAttribute. by intros ->. Qed.

(** X6: whatever state the element is in, [connectedCallback] completes and
    leaves the host and the two checkboxes in agreement on [checked],
    [disabled] and [readonly], with both listeners registered; the element is
    disabled, respectively readonly, after the call exactly when it was
    before. *)
Theorem connectedCallback_establishes_sync s :
  ∃ s', connectedCallback s = Some s'
        ∧ in_sync s'
        ∧ click_listener s' = true ∧ keyup_listener s' = true
        ∧ get_disabled s' = get_disabled s
        ∧ get_readonly s' = get_readonly s.
Proof.
  destruct (connectedCallback_total s) as [s' E]. exists s'. split; [done|].
  apply connectedCallback_steps in E
    as (s1 & s2 & s3 & s4 & s5 & s6 & s7 & s8 & s9 & s10 & s11
        & E1 & E2 & E3 & E4 & E5 & E6 & E7 & E8 & E9 & E10 & E11 & ->).
  assert (mirrors "checked" s9) as Hc9.
  { apply set_property_react_present in E9; [|done]. by eapply mirrors_present. }
  assert (mirrors "disabled" s10) as Hd10.
  { apply set_property_react_present in E10; [|done]. by eapply mirrors_present. }
  assert (mirrors "readonly" s11) as Hr11.
  { apply set_property_react_present in E11; [|done]. by eapply mirrors_present. }
  assert (frame A_disabled s9 s10) as F10 by (by apply set_property_react_frame in E10).
  assert (frame A_readonly s10 s11) as F11 by (by apply set_property_react_frame in E11).
  assert (get_disabled s9 = get_disabled s) as Hd.
  { unfold get_disabled. apply hasAttribute_ext.
    host_back "disabled" E9. host_back "disabled" E8. host_back "disabled" E7.
    host_back "disabled" E6. host_back "disabled" E5. host_back "disabled" E4.
    host_back "disabled" E3. host_back "disabled" E2. host_back "disabled" E1.
    done. }
  assert (get_disabled s10 = get_disabled s9) as Hd'.
  { apply set_property_react_present in E10; [|done]. by injection E10. }
  assert (get_readonly s11 = get_readonly s10) as Hr'.
  { apply set_property_react_present in E11; [|done]. by injection E11. }
  assert (get_readonly s10 = get_readonly s) as Hr.
  { unfold get_readonly. apply hasAttribute_ext.
    host_back "readonly" E10. host_back "readonly" E9. host_back "readonly" E8.
    host_back "readonly" E7. host_back "readonly" E6. host_back "readonly" E5.
    host_back "readonly" E4. host_back "readonly" E3. host_back "readonly" E2.
    host_back "readonly" E1. done. }
  assert (in_sync s11) as Hs11.
  { split_and!; [|by apply (mirrors_frame "disabled" A_readonly s10)|done].
    apply (mirrors_frame "checked" A_readonly s10); [done..|].
    by apply (mirrors_frame "checked" A_disabled s9). }
  split_and!; try done.
  - change (get_disabled s11 = get_disabled s).
    rewrite <-Hd, <-Hd'. by apply (frame_get_disabled A_readonly).
  - change (get_readonly s11 = get_readonly s). by rewrite Hr', Hr.
Qed.


(** *** Sequences of events *)

Lemma dispatch_toggling ev s :
  get_readonly s = false → get_disabled s = false →
  click_listener s = true → keyup_listener s = true →
  ∃ s', dispatchEvent ev s = Some s'
        ∧ get_checked s' = xorb (toggling ev) (get_checked s)
        ∧ get_readonly s' = false ∧ get_disabled s' = false
        ∧ click_listener s' = true ∧ keyup_listener s' = true.
Proof.
  intros Hr Hd Hc Hk.
  assert (∃ s', set_checked react (VBoolean (negb (get_checked s))) s = Some s'
                ∧ get_checked s' = negb (get_checked s)
                ∧ get_readonly s' = false ∧ get_disabled s' = false
                ∧ click_listener s' = true ∧ keyup_listener s' = true)
    as (s' & E & Hc' & Hr' & Hd' & Hl' & Hk').
  { destruct (set_checked_spec (VBoolean (negb (get_checked s))) s)
      as (s' & E & Hp & Hf).
    exists s'. split_and!; [done|by injection Hp|..].
    - rewrite <-Hr. by apply (frame_get_readonly A_checked).
    - rewrite <-Hd. by apply (frame_get_disabled A_checked).
    - rewrite <-Hc. apply Hf.
    - rewrite <-Hk. apply Hf. }
  destruct ev as [|e]; simpl.
  - rewrite Hc. unfold _click. rewrite Hr, Hd, E. simpl. by exists s'.
  - rewrite Hk. unfold _keyup. rewrite Hr, Hd. simpl.
    destruct (_ || _); simpl.
    + rewrite E. simpl. by exists s'.
    + exists s. by destruct (get_checked s).
Qed.

(** X8: on a connected switch that is neither readonly nor disabled, a
    sequence of click and keyup events inverts the checked state once for
    every click and every keyup of key 32 or 13 in it, and the other keys
    count for nothing: the switch ends up inverted exactly when the number
    of such events is odd. *)
Theorem events_flip_by_parity (evs : list event) s :
  get_readonly s = false → get_disabled s = false →
  click_listener s = true → keyup_listener s = true →
  ∃ s', dispatchEvents evs s = Some s'
        ∧ get_checked s' =
            xorb (Nat.odd (length (List.filter toggling evs))) (get_checked s).
Proof.
  revert s. induction evs as [|ev evs IH]; intros s Hr Hd Hc Hk.
  { exists s. by destruct (get_checked s). }
  destruct (dispatch_toggling ev s Hr Hd Hc Hk)
    as (s1 & E1 & Hc1 & Hr1 & Hd1 & Hl1 & Hk1).
  destruct (IH s1 Hr1 Hd1 Hl1 Hk1) as (s' & E & Hc').
  exists s'. simpl. rewrite E1. simpl. split; [done|].
  rewrite Hc', Hc1. destruct (toggling ev); simpl.
  - rewrite Nat.odd_succ, <-Nat.negb_odd.
    by destruct (Nat.odd _), (get_checked s).
  - done.
Qed.

(** *** Size written as an attribute *)

(** X9: writing a new value to the [width] or [height] attribute of the
    host resizes the switch as assigning the property does: the setter
    gives the style of the host the text written followed by [px], and the
    handle 0.45 times the number it denotes as width, respectively that
    number less 4 as height. *)
Theorem size_attribute_write_resizes (x : string) s :
  (host s !! "width" ≠ Some x →
   ∃ s', setAttribute react "width" x s = Some s'
         ∧ style s' !! "width" = Some (x +:+ "px")
         ∧ handle s' !! "width"
           = Some (NumberToString (StringToNumber x * 0.45) +:+ "px"))
  ∧ (host s !! "height" ≠ Some x →
     ∃ s', setAttribute react "height" x s = Some s'
           ∧ style s' !! "height" = Some (x +:+ "px")
           ∧ handle s' !! "height"
             = Some (NumberToString (StringToNumber x - 4) +:+ "px")).
Proof.
  split; intros Hx; unfold setAttribute; simpl;
    rewrite react_unfold; simpl; rewrite bool_decide_eq_true_2 by done.
  - apply (set_width_spec (VString x)).
  - apply (set_height_spec (VString x)).
Qed.

(** *** Independence of the properties *)

(** X10: assigning one property leaves every other property of the switch
    as it reads: a flag does not move when a size, a text, the colour, the
    name or the value is assigned, nor the other way round. *)
Theorem assignment_leaves_other_properties a b v s :
  a ≠ b →
  ∃ s', set_property react a v s = Some s'
        ∧ get_property b s' = get_property b s.
Proof.
  intros Hab. destruct (set_property_react_total a v s) as [s' E].
  exists s'. split; [done|].
  assert (attr_name b ≠ attr_name a) as Hn by (by intros ?%attr_name_inj).
  assert (host s' !! attr_name b = host s !! attr_name b) as Hh
    by (by apply (set_property_react_other a v s s')).
  assert (label s' !! attr_name b = label s !! attr_name b) as Hl.
  { apply set_property_label_frame in E; [|apply react_label_framing].
    by apply E. }
  destruct b; simpl in *;
    unfold get_disabled, get_readonly, get_checked, get_value, get_width,
      get_height, get_name, get_color, get_on_text, get_off_text, hasAttribute;
    by rewrite ?Hh, ?Hl.
Qed.

(** *** What the form submits *)

(** X11: assigning [name] or [value] puts the string assigned on the hidden
    form checkbox as well as on the host, from whatever state; so does
    writing the attribute on the host a value it did not have. *)
Theorem form_checkbox_carries_name_and_value v (x : string) s :
  (∃ s', set_name react v s = Some s'
         ∧ attributes (checkbox s') !! "name" = Some (ToString v)
         ∧ get_name s' = Some (ToString v))
  ∧ (∃ s', set_value react v s = Some s'
           ∧ attributes (checkbox s') !! "value" = Some (ToString v)
           ∧ get_value s' = Some (ToString v))
  ∧ (host s !! "name" ≠ Some x →
     ∃ s', setAttribute react "name" x s = Some s'
           ∧ attributes (checkbox s') !! "name" = Some x
           ∧ get_name s' = Some x)
  ∧ (host s !! "value" ≠ Some x →
     ∃ s', setAttribute react "value" x s = Some s'
           ∧ attributes (checkbox s') !! "value" = Some x
           ∧ get_value s' = Some x).
Proof.
  assert (∀ a w s0, is_Some (mirror_of a s0) →
            ∃ s', set_property react a w s0 = Some s'
                  ∧ mirror_of a s' = Some (Some (ToString w))
                  ∧ host s' !! attr_name a = Some (ToString w)) as Hset.
  { intros a w s0 Hm. destruct (set_property_react_total a w s0) as [s' E].
    exists s'. split; [done|].
    by destruct (set_property_react_mirror a w s0 s' Hm E). }
  split_and!.
  - destruct (Hset A_name v s) as (s' & E & Em & Eh); [by eexists|].
    exists s'. split_and!; [done| |done]. by injection Em.
  - destruct (Hset A_value v s) as (s' & E & Em & Eh); [by eexists|].
    exists s'. split_and!; [done| |done]. by injection Em.
  - intros Hx. unfold setAttribute. simpl. rewrite react_unfold. simpl.
    rewrite bool_decide_eq_true_2 by done.
    destruct (Hset A_name (VString x)
                (with_host (<["name" := x]> (host s)) s))
      as (s' & E & Em & Eh); [by eexists|].
    exists s'. split_and!; [done| |done]. by injection Em.
  - intros Hx. unfold setAttribute. simpl. rewrite react_unfold. simpl.
    rewrite bool_decide_eq_true_2 by done.
    destruct (Hset A_value (VString x)
                (with_host (<["value" := x]> (host s)) s))
      as (s' & E & Em & Eh); [by eexists|].
    exists s'. split_and!; [done| |done]. by injection Em.
Qed.

End Further.

(** ** The model on the reference platform *)

#[local] Existing Instance reference_platform.

Lemma exact_decimal_zero_mul k :
  exact_decimal (0 * k) = "0" ∨ exact_decimal (0 * k) = "NaN".
Proof.
  unfold exact_decimal. rewrite mul_spec.
  change (Prim2SF 0) with (S754_zero false).
  destruct (Prim2SF k) as [[]|[]| |[]]; simpl; auto.
Qed.

(** C6, counterexample: on the reference platform the handle is 20px high in
    a switch of 24px and 44px high in a switch of 48px, and no factor relates
    the height of the handle to the height of the switch (a switch of height
    0 gets a handle of height -4px). *)
Lemma handle_height_not_proportional :
  ((set_height react (VNumber 24) fresh_switch ≫= λ s, handle s !! "height")
   = Some "20px"
   ∧ (set_height react (VNumber 48) fresh_switch ≫= λ s, handle s !! "height")
     = Some "44px")
  ∧ ¬ handle_resized_proportionally.
Proof.
  split; [split; vm_compute; reflexivity|].
  intros [_ [k Hk]].
  destruct (Hk 0%float fresh_switch) as (s' & E & Hh).
  destruct (set_height_spec (VNumber 0) fresh_switch) as (s1 & E1 & _ & Hh1).
  rewrite E in E1. injection E1 as <-. rewrite Hh in Hh1.
  injection Hh1 as Hh1. simpl in Hh1.
  change (exact_decimal (0 - 4)) with "-4" in Hh1.
  destruct (exact_decimal_zero_mul k) as [E0|E0]; rewrite E0 in Hh1; done.
Qed.

(** The model run on the two sample elements. *)
Example connected_fresh_switch :
  (λ s, (get_checked s, get_disabled s, get_readonly s, get_color s,
         get_value s, get_width s, get_height s))
    <$> connectedCallback fresh_switch
  = Some (true, false, false, Some "info", Some "1", Some "48", Some "24").
Proof. vm_compute. reflexivity. Qed.

Example toggle_connected_switch :
  get_checked <$> (connectedCallback fresh_switch ≫= toggle) = Some false
  ∧ get_checked <$> ((connectedCallback fresh_switch ≫= toggle) ≫= toggle)
    = Some true
  ∧ get_checked <$> (connectedCallback disabled_switch ≫= toggle) = Some true.
Proof. split_and!; vm_compute; reflexivity. Qed.

Example color_assignments :
  get_color <$> (connectedCallback fresh_switch
                   ≫= set_color react (VString "danger")) = Some (Some "danger")
  ∧ get_color <$> (connectedCallback fresh_switch
                     ≫= set_color react (VString "purple")) = Some (Some "info").
Proof. split; vm_compute; reflexivity. Qed.

(** Removing the [width] attribute of a host nests three reactions: two
    levels do not suffice, three do. *)
Example three_levels_are_needed :
  removeAttribute (attributeChangedCallback 2) "width"
    (with_host (<["width" := "48"]> ∅) fresh_switch) = None
  ∧ get_width <$> removeAttribute (attributeChangedCallback 3) "width"
                    (with_host (<["width" := "48"]> ∅) fresh_switch)
    = Some (Some "null").
Proof. split; vm_compute; reflexivity. Qed.

(** C1, witness: the switch created from markup with [disabled]. *)
Lemma toggle_rejected_on_disabled_switch :
  (get_disabled disabled_switch = true ∨ get_readonly disabled_switch = true)
  ∧ after <$> _click disabled_switch = Some disabled_switch
  ∧ after <$> _keyup {| which := 32 |} disabled_switch = Some disabled_switch
  ∧ toggle disabled_switch = Some disabled_switch.
Proof.
  assert (get_disabled disabled_switch = true ∨ get_readonly disabled_switch = true)
    as Hd by (left; vm_compute; reflexivity).
  split; [exact Hd|].
  destruct (toggle_rejected_when_disabled_or_readonly {| which := 32 |}
              disabled_switch Hd) as (Hc & Hk & Ht & _).
  exact (conj Hc (conj Hk Ht)).
Defined.

(** C9, witness: the space key on a fresh switch. *)
Lemma keyup_space_on_fresh_switch :
  (get_readonly fresh_switch = false ∧ get_disabled fresh_switch = false)
  ∧ ∃ h, _keyup {| which := 32 |} fresh_switch = Some h
         ∧ get_checked (after h) = negb (get_checked fresh_switch).
Proof.
  assert (get_readonly fresh_switch = false) as Hr by (vm_compute; reflexivity).
  assert (get_disabled fresh_switch = false) as Hd by (vm_compute; reflexivity).
  split; [exact (conj Hr Hd)|].
  destruct (keyup_toggles_on_space_or_enter {| which := 32 |} fresh_switch Hr Hd)
    as (h & E & _ & Hkey & _).
  exists h. split; [exact E|]. apply Hkey. left. reflexivity.
Defined.

(** C2, witness: checking a fresh switch, whose three elements agree. *)
Lemma in_sync_after_checking_fresh_switch :
  in_sync fresh_switch
  ∧ ∃ s', run (Assign A_checked (VBoolean true)) fresh_switch = Some s'
          ∧ in_sync s'.
Proof.
  assert (in_sync fresh_switch) as Hs
    by (repeat split; vm_compute; reflexivity).
  split; [exact Hs|].
  exact (in_sync_preserved (Assign A_checked (VBoolean true)) fresh_switch Hs).
Defined.

(** X1, witness: the theme "danger" assigned to a fresh switch. *)
Lemma get_after_set_danger :
  VALID_COLORS_includes (VString "danger") = true
  ∧ ∃ s', set_property react A_color (VString "danger") fresh_switch = Some s'
          ∧ get_property A_color s' = VString "danger".
Proof.
  split; [vm_compute; reflexivity|].
  apply (get_after_set A_color (VString "danger") fresh_switch).
  intros _. vm_compute. reflexivity.
Defined.

(** X2, witness: naming a fresh switch, whose copies agree. *)
Lemma text_in_sync_after_naming_fresh_switch :
  text_in_sync fresh_switch
  ∧ ∃ s', run (Assign A_name (VString "switch")) fresh_switch = Some s'
          ∧ text_in_sync s'.
Proof.
  assert (text_in_sync fresh_switch) as Hs
    by (repeat split; vm_compute; reflexivity).
  split; [exact Hs|].
  exact (text_in_sync_preserved (Assign A_name (VString "switch")) fresh_switch Hs).
Defined.

(** X5, witness: [disabled] written on, and removed from, the switch
    created from markup with [disabled]. *)
Lemma disabled_attribute_write_syncs :
  (is_boolean A_disabled = true
   ∧ hasAttribute (host disabled_switch) "disabled" = true)
  ∧ (∃ s', setAttribute react "disabled" "" disabled_switch = Some s'
           ∧ present "disabled" s' = (true, true, true)
           ∧ "disabled" ∈ classList s')
  ∧ (∃ s', removeAttribute react "disabled" disabled_switch = Some s'
           ∧ present "disabled" s' = (false, false, false)
           ∧ "disabled" ∉ classList s').
Proof.
  assert (is_boolean A_disabled = true) as Hb by reflexivity.
  assert (hasAttribute (host disabled_switch) "disabled" = true) as Hh
    by (vm_compute; reflexivity).
  split; [exact (conj Hb Hh)|].
  destruct (flag_attribute_write_syncs A_disabled "" disabled_switch Hb)
    as [Hset Hremove].
  exact (conj Hset (Hremove Hh)).
Defined.

(** X8, witness: a click, the key A, enter and space on a listening
    switch. *)
Lemma three_toggles_invert_listening_switch :
  (get_readonly listening_switch = false
   ∧ get_disabled listening_switch = false
   ∧ click_listener listening_switch = true
   ∧ keyup_listener listening_switch = true)
  ∧ ∃ s', dispatchEvents
            [Click; Keyup {| which := 65 |}; Keyup {| which := 13 |};
             Keyup {| which := 32 |}] listening_switch = Some s'
          ∧ get_checked s' = negb (get_checked listening_switch).
Proof.
  assert (get_readonly listening_switch = false) as Hr by (vm_compute; reflexivity).
  assert (get_disabled listening_switch = false) as Hd by (vm_compute; reflexivity).
  assert (click_listener listening_switch = true) as Hc by reflexivity.
  assert (keyup_listener listening_switch = true) as Hk by reflexivity.
  split; [exact (conj Hr (conj Hd (conj Hc Hk)))|].
  exact (events_flip_by_parity
           [Click; Keyup {| which := 65 |}; Keyup {| which := 13 |};
            Keyup {| which := 32 |}] listening_switch Hr Hd Hc Hk).
Defined.

(** X10, witness: disabling a fresh switch does not move [checked]. *)
Lemma disabling_leaves_checked :
  A_disabled ≠ A_checked
  ∧ ∃ s', set_property react A_disabled (VBoolean true) fresh_switch = Some s'
          ∧ get_property A_checked s' = get_property A_checked fresh_switch.
Proof.
  assert (A_disabled ≠ A_checked) as Hab by discriminate.
  split; [exact Hab|].
  exact (assignment_leaves_other_properties A_disabled A_checked
           (VBoolean true) fresh_switch Hab).
Defined.
